(** * goa-go/router: the router of [router.go], embedded and verified

    The development follows [router.go]: the [Router] record, [New], the
    verb shortcuts, [Register], [compose], [allowed], [ServeFiles],
    [Handle] and [Routes].  The prefix tree ([tree.go]), the path cleaner
    ([path.go]) and the hosting framework ([goa.Context], [net/url],
    [net/http]) are consumed through interfaces, exactly as [router.go]
    consumes them. *)

From Stdlib Require Import ZArith String Ascii List Lia Permutation.
From Equations Require Import Equations.
From stdpp Require Import base option list strings gmap.

Local Open Scope string_scope.
Local Open Scope list_scope.
Local Open Scope Z_scope.
Local Open Scope nat_scope.

(** ** Data of the hosting framework that [router.go] touches *)

(** [goa.Param] and [goa.Params]. *)
Record Param : Type := mkParam { Key : string; Value : string }.

Definition Params : Type := list Param.

(** The part of [*url.URL] the router writes ([URL.Path]) and the part it
    leaves alone. *)
Record URL : Type := mkURL { URL_Path : string; URL_RawQuery : string }.

Definition URL_with_Path (u : URL) (p : string) : URL :=
  {| URL_Path := p; URL_RawQuery := URL_RawQuery u |}.

(** The fields of [goa.Context] that [router.go] reads or assigns. *)
Record Context : Type := mkContext {
  Method : string;
  Path : string;
  Url : URL;
  CParams : Params
}.

(** What a dispatch does to the context, in program order.  Assignments to
    fields and calls of the context's methods are effects; calls of stored
    handlers are recorded with the handler that is called. *)
Inductive Effect : Type :=
| SetParams (ps : Params)              (* c.Params = ps *)
| SetURLPath (p : string)              (* c.URL.Path = p *)
| SetPath (p : string)                 (* c.Path = p *)
| DoRedirect (code : Z) (url : string) (* c.Redirect(code, url) *)
| SetHeader (key value : string)       (* c.SetHeader(key, value) *)
| DoError (code : Z) (msg : string).   (* c.Error(code, msg) *)

Inductive Action (H : Type) : Type :=
| Do (e : Effect)
| Call (h : H).

Arguments Do {H} e.
Arguments Call {H} h.

(** How a call of [Register] or [ServeFiles] ends. *)
Inductive Outcome : Type :=
| Done
| GuardPanic (msg : string)        (* panic(...) raised by router.go itself *)
| IndexOutOfRange (idx len : nat)  (* the run-time fault of an index access *)
| RoutePanic (msg : string).       (* panic raised inside addRoute *)

(** ** Handlers and middleware *)

(** A value together with the equation that remembers where it came from:
    lets a recursive definition use the fact that an index was in range. *)
Definition inspect {A : Type} (a : A) : {b : A | a = b} := exist _ a eq_refl.

Section Handlers.
Context {Ctx St : Type}.

(** [type Handler func(c *goa.Context)]: a procedure on the program state,
    given the context pointer. *)
Definition Handler : Type := Ctx -> St -> St.

(** [goa.Middleware], [func(c *goa.Context, next func())]: the second
    argument is the continuation [next]. *)
Definition Middleware : Type := Ctx -> (St -> St) -> St -> St.

(** The closure [dispatch] inside [compose]: [i == len(m)] returns, any
    other [i] calls [m[i]] with the continuation [dispatch(i + 1)].  It is
    entered at 0 and steps by one, so [i] never exceeds [len(m)]. *)
Equations? dispatch (m : list Middleware) (c : Ctx) (i : nat) : St -> St
  by wf (length m - i) lt :=
  dispatch m c i with inspect (m !! i) := {
    | exist _ (Some fn) _ => fn c (dispatch m c (i + 1))
    | exist _ None _ => fun s => s }.
Proof.
  apply lookup_lt_Some in e. lia.
Qed.

(** [compose]. *)
Definition compose (m : list Middleware) : Handler :=
  fun c => dispatch m c 0.

End Handlers.

(** ** Interfaces of the code [router.go] calls but does not define *)

(** [tree.go]: the per-method prefix tree.  [node] is the tree, [H] the
    handlers it stores.  [addRoute] works in place and may panic half-way, so
    it returns the node it leaves behind together with the panic message, if
    any.  [getValue] returns [(handle, params, tsr)], and
    [findCaseInsensitivePath] returns [(fixedPath, found)]; neither writes
    to the node. *)
Class Tree (H node : Type) : Type := {
  new_node : node;
  addRoute : node -> string -> H -> node * option string;
  getValue : node -> string -> option H * Params * bool;
  findCaseInsensitivePath : node -> string -> bool -> string * bool
}.

(** [path.go]'s [CleanPath] and the [String] method of [net/url]'s URL. *)
Class PathOps : Type := {
  CleanPath : string -> string;
  URL_String : URL -> string
}.

(** The hosting framework as seen through a context pointer: reading the
    fields of the context, carrying out an assignment or a method call on
    it, and serving a file ([http.FileServer(root).ServeHTTP]). *)
Class Host (Ctx St FS : Type) : Type := {
  ctx_get : Ctx -> St -> Context;
  ctx_do : Ctx -> Effect -> St -> St;
  serve_file : FS -> Ctx -> St -> St
}.

(** [goa.Params.Get]: the first value stored under [key], or the empty
    string. *)
Fixpoint Params_Get (ps : Params) (key : string) : string :=
  match ps with
  | [] => ""
  | p :: rest => if String.eqb (Key p) key then Value p else Params_Get rest key
  end.

(** ** The router *)

(** [type Router struct].  A nil [trees] map is [None]; nil handlers are
    [None]. *)
Record Router (H node : Type) : Type := mkRouter {
  trees : option (gmap string node);
  RedirectTrailingSlash : bool;
  RedirectFixedPath : bool;
  HandleMethodNotAllowed : bool;
  HandleOPTIONS : bool;
  NotFound : option H;
  MethodNotAllowed : option H;
  Methods : list string
}.

Arguments mkRouter {H node}.
Arguments trees {H node} r.
Arguments RedirectTrailingSlash {H node} r.
Arguments RedirectFixedPath {H node} r.
Arguments HandleMethodNotAllowed {H node} r.
Arguments HandleOPTIONS {H node} r.
Arguments NotFound {H node} r.
Arguments MethodNotAllowed {H node} r.
Arguments Methods {H node} r.

(** [r.trees = t], every other field kept. *)
Definition with_trees {H node : Type} (r : Router H node)
    (t : option (gmap string node)) : Router H node :=
  {| trees := t;
     RedirectTrailingSlash := RedirectTrailingSlash r;
     RedirectFixedPath := RedirectFixedPath r;
     HandleMethodNotAllowed := HandleMethodNotAllowed r;
     HandleOPTIONS := HandleOPTIONS r;
     NotFound := NotFound r;
     MethodNotAllowed := MethodNotAllowed r;
     Methods := Methods r |}.

(** A read of the [trees] map: a nil map reads as an empty one. *)
Definition trees_map {H node : Type} (r : Router H node) : gmap string node :=
  match trees r with
  | Some t => t
  | None => ∅
  end.

(** [r.trees[method]], [None] for the nil pointer. *)
Definition tree_of {H node : Type} (r : Router H node) (method : string)
    : option node :=
  trees_map r !! method.

(** Go leaves the order in which [range] visits a map open.  A visit order
    of [r.trees] is any arrangement of its keys. *)
Definition range_order {H node : Type} (r : Router H node)
    (order : list string) : Prop :=
  order ≡ₚ (map_to_list (trees_map r)).*1.

(** [path[:len(path)-1]]. *)
Definition drop_last_byte (path : string) : string :=
  String.substring 0 (String.length path - 1) path.

(** [len(path) > 1 && path[len(path)-1] == '/']. *)
Definition ends_in_slash (path : string) : bool :=
  (1 <? String.length path) &&
  match String.get (String.length path - 1) path with
  | Some b => Ascii.eqb b "/"
  | None => false
  end.

(** The two branches of lines 241-247 of [Handle]. *)
Definition toggle_slash (path : string) : string :=
  if ends_in_slash path then drop_last_byte path else path +:+ "/".

(** The statement both loops of [allowed] share:
    [if len(allow) == 0 { allow = method } else { allow += ", " + method }]. *)
Definition add_method (allow method : string) : string :=
  if String.length allow =? 0 then method else allow +:+ ", " +:+ method.

Section RouterOps.
Context {Ctx St node FS : Type}.
Context {tree : Tree (@Handler Ctx St) node} {pathops : PathOps}
  {host : Host Ctx St FS}.

Local Abbreviation Hd := (@Handler Ctx St).
Local Abbreviation RouterT := (Router (@Handler Ctx St) node).

(** [New]. *)
Definition New : RouterT :=
  {| trees := None;
     RedirectTrailingSlash := true;
     RedirectFixedPath := true;
     HandleMethodNotAllowed := true;
     HandleOPTIONS := true;
     NotFound := None;
     MethodNotAllowed := None;
     Methods := [] |}.

(** The closure [middlewareHandler] of [Register], lines 135-138. *)
Definition middlewareHandler (middlewares : list Middleware) (handler : Hd) : Hd :=
  fun c s => handler c (compose middlewares c s).

(** [Register].  The router is returned as the call leaves it, together with
    how the call ended. *)
Definition Register (r : RouterT) (method path : string) (handler : Hd)
    (middlewares : list Middleware) : RouterT * Outcome :=
  match String.get 0 path with
  | None => (r, IndexOutOfRange 0 (String.length path))
  | Some b =>
    if negb (Ascii.eqb b "/") then
      (r, GuardPanic ("path must begin with '/' in path '" +:+ path +:+ "'"))
    else
      let t := trees_map r in
      let root := match t !! method with
                  | Some n => n
                  | None => new_node
                  end in
      let stored := if 0 <? length middlewares
                    then middlewareHandler middlewares handler
                    else handler in
      let '(root', failure) := addRoute root path stored in
      (with_trees r (Some (<[method := root']> t)),
       match failure with
       | Some msg => RoutePanic msg
       | None => Done
       end)
  end.

(** The verb shortcuts. *)
Definition GET (r : RouterT) (path : string) (handler : Hd)
    (middlewares : list Middleware) : RouterT * Outcome :=
  Register r "GET" path handler middlewares.

Definition HEAD (r : RouterT) (path : string) (handler : Hd)
    (middlewares : list Middleware) : RouterT * Outcome :=
  Register r "HEAD" path handler middlewares.

Definition OPTIONS (r : RouterT) (path : string) (handler : Hd)
    (middlewares : list Middleware) : RouterT * Outcome :=
  Register r "OPTIONS" path handler middlewares.

Definition POST (r : RouterT) (path : string) (handler : Hd)
    (middlewares : list Middleware) : RouterT * Outcome :=
  Register r "POST" path handler middlewares.

Definition PUT (r : RouterT) (path : string) (handler : Hd)
    (middlewares : list Middleware) : RouterT * Outcome :=
  Register r "PUT" path handler middlewares.

Definition PATCH (r : RouterT) (path : string) (handler : Hd)
    (middlewares : list Middleware) : RouterT * Outcome :=
  Register r "PATCH" path handler middlewares.

Definition DELETE (r : RouterT) (path : string) (handler : Hd)
    (middlewares : list Middleware) : RouterT * Outcome :=
  Register r "DELETE" path handler middlewares.

(** The body of the server-wide loop of [allowed], lines 164-173. *)
Definition allowed_star_step (allow method : string) : string :=
  if String.eqb method "OPTIONS" then allow else add_method allow method.

(** The body of the per-path loop of [allowed], lines 178-190.  [method]
    comes from [range r.trees], so its tree is there. *)
Definition allowed_path_step (r : RouterT) (path reqMethod : string)
    (allow method : string) : string :=
  if String.eqb method reqMethod || String.eqb method "OPTIONS" then allow
  else match tree_of r method with
       | Some n =>
         match getValue n path with
         | (Some _, _, _) => add_method allow method
         | (None, _, _) => allow
         end
       | None => allow
       end.

(** [allowed], with the order in which [range] visits [r.trees]. *)
Definition allowed (r : RouterT) (order : list string) (path reqMethod : string)
    : string :=
  let allow :=
    if String.eqb path "*"
    then fold_left allowed_star_step order ""
    else fold_left (allowed_path_step r path reqMethod) order "" in
  if 0 <? String.length allow then allow +:+ ", OPTIONS" else allow.

(** The handler [ServeFiles] registers, lines 216-220. *)
Definition fileHandler (root : FS) : Hd :=
  fun c s =>
    serve_file root c
      (ctx_do c (SetURLPath (Params_Get (CParams (ctx_get c s)) "filepath")) s).

(** [ServeFiles]. *)
Definition ServeFiles (r : RouterT) (path : string) (root : FS)
    : RouterT * Outcome :=
  if (String.length path <? 10) ||
     negb (String.eqb (String.substring (String.length path - 10) 10 path)
                      "/*filepath")
  then (r, GuardPanic ("path must end with /*filepath in path '" +:+ path +:+ "'"))
  else GET r path (fileHandler root) [].

(** Lines 227-265 of [Handle]: [Some] of what was done when one of the
    [return]s of that block is reached, [None] when control leaves the
    block. *)
Definition lookupStep (r : RouterT) (c : Context) : option (list (Action Hd)) :=
  let path := Path c in
  match tree_of r (Method c) with
  | None => None
  | Some root =>
    match getValue root path with
    | (Some handler, ps, _) => Some [Do (SetParams ps); Call handler]
    | (None, _, tsr) =>
      if negb (String.eqb (Method c) "CONNECT") && negb (String.eqb path "/")
      then
        let code := if negb (String.eqb (Method c) "GET") then 307%Z else 301%Z in
        if tsr && RedirectTrailingSlash r then
          let p := toggle_slash path in
          Some [Do (SetURLPath p); Do (SetPath p);
                Do (DoRedirect code (URL_String (URL_with_Path (Url c) p)))]
        else if RedirectFixedPath r then
          let '(fixedPath, found) :=
            findCaseInsensitivePath root (CleanPath path)
                                    (RedirectTrailingSlash r) in
          if found
          then Some [Do (SetPath fixedPath);
                     Do (DoRedirect code (URL_String (Url c)))]
          else None
        else None
      else None
    end
  end.

(** Lines 267-291 of [Handle]. *)
Definition fallbackStep (r : RouterT) (order : list string) (c : Context)
    : list (Action Hd) :=
  let path := Path c in
  let notFound := match NotFound r with
                  | Some h => [Call h]
                  | None => []
                  end in
  if String.eqb (Method c) "OPTIONS" && HandleOPTIONS r then
    let allow := allowed r order path (Method c) in
    if 0 <? String.length allow
    then [Do (SetHeader "Allow" allow)]
    else notFound
  else if HandleMethodNotAllowed r then
    let allow := allowed r order path (Method c) in
    if 0 <? String.length allow
    then Do (SetHeader "Allow" allow) ::
         match MethodNotAllowed r with
         | Some h => [Call h]
         | None => [Do (DoError 405 "Method Not Allowed")]
         end
    else notFound
  else notFound.

(** [Handle]: what a dispatch of the context [c] does, in program order. *)
Definition Handle (r : RouterT) (order : list string) (c : Context)
    : list (Action Hd) :=
  match lookupStep r c with
  | Some done => done
  | None => fallbackStep r order c
  end.

(** Carrying out one action, and a list of them, on the program state. *)
Definition perform (c : Ctx) (s : St) (a : Action Hd) : St :=
  match a with
  | Do e => ctx_do c e s
  | Call h => h c s
  end.

Definition run (c : Ctx) (acts : list (Action Hd)) (s : St) : St :=
  fold_left (perform c) acts s.

(** [r.Handle] as a handler: the dispatch of the context behind [c]. *)
Definition HandleFunc (r : RouterT) (order : list string) : Hd :=
  fun c s => run c (Handle r order (ctx_get c s)) s.

(** [Routes]. *)
Definition Routes (r : RouterT) (order : list string) : Middleware :=
  fun c next s => next (HandleFunc r order c s).

End RouterOps.

(** ** A reference tree, path cleaner and host

    None of [tree.go], [path.go] and the [goa] package is part of the
    sources at hand.  The theorems below hold for every implementation of
    the interfaces above; the definitions of this module give one
    implementation, used to run the router on concrete requests. *)

Module SpecTree.

(** Modelled from the spec: the pieces of a pattern that [tree.go] tells
    apart (section 4.1): literal bytes, named parameters [:name] and
    catch-all suffixes [*name]. *)
Inductive token : Type :=
| Lit (b : ascii)
| Wild (name : string)
| CatchAll (name : string).

Definition close_wild (catchall : bool) (name : string) : token :=
  if catchall then CatchAll name else Wild name.

(** Modelled from the spec: the decomposition of a pattern into literal runs
    and wildcard segments (section 4.1).  [cur] is the wildcard being read,
    if any; a wildcard name runs up to the next slash or the end. *)
Fixpoint tokens_from (cur : option (bool * string)) (pattern : string)
    : list token :=
  match pattern, cur with
  | EmptyString, None => []
  | EmptyString, Some (k, name) => [close_wild k name]
  | String a rest, None =>
    if Ascii.eqb a ":" then tokens_from (Some (false, "")) rest
    else if Ascii.eqb a "*" then tokens_from (Some (true, "")) rest
    else Lit a :: tokens_from None rest
  | String a rest, Some (k, name) =>
    if Ascii.eqb a "/" then close_wild k name :: Lit a :: tokens_from None rest
    else tokens_from (Some (k, name +:+ String a "")) rest
  end.

Definition tokens (pattern : string) : list token := tokens_from None pattern.

(** The bytes of [path] before its first slash, and the rest. *)
Fixpoint take_segment (path : string) : string * string :=
  match path with
  | EmptyString => ("", "")
  | String a rest =>
    if Ascii.eqb a "/" then ("", path)
    else let '(seg, tl) := take_segment rest in (String a seg, tl)
  end.

(** Modelled from the spec: lookup of a path against one pattern (section
    4.2).  Literal bytes are consumed byte for byte; a parameter consumes up
    to the next slash or the end and records one pair; a catch-all consumes
    everything that remains, from the slash it follows on, and records one
    pair. *)
Fixpoint match_tokens (ts : list token) (path : string) : option Params :=
  match ts with
  | [] => if String.eqb path "" then Some [] else None
  | Lit a :: ts' =>
    match path with
    | String b rest =>
      if Ascii.eqb a b then
        match ts' with
        | CatchAll name :: _ => Some [mkParam name path]
        | _ => match_tokens ts' rest
        end
      else None
    | EmptyString => None
    end
  | Wild name :: ts' =>
    let '(value, rest) := take_segment path in
    if String.eqb value "" then None
    else option_map (cons (mkParam name value)) (match_tokens ts' rest)
  | CatchAll name :: _ => Some [mkParam name path]
  end.

(** ASCII lower case. *)
Definition lower (a : ascii) : ascii :=
  let n := nat_of_ascii a in
  if (65 <=? n) && (n <=? 90) then ascii_of_nat (n + 32) else a.

(** Modelled from the spec: the case-insensitive walk of section 4.3 against
    one pattern.  Literal bytes are compared without regard to case and the
    pattern's own casing goes to the corrected path; what a wildcard
    captures is kept as it came. *)
Fixpoint match_tokens_ci (ts : list token) (path : string) : option string :=
  match ts with
  | [] => if String.eqb path "" then Some "" else None
  | Lit a :: ts' =>
    match path with
    | String b rest =>
      if Ascii.eqb (lower a) (lower b) then
        match ts' with
        | CatchAll _ :: _ => Some (String a rest)
        | _ => option_map (String a) (match_tokens_ci ts' rest)
        end
      else None
    | EmptyString => None
    end
  | Wild _ :: ts' =>
    let '(value, rest) := take_segment path in
    if String.eqb value "" then None
    else option_map (String.append value) (match_tokens_ci ts' rest)
  | CatchAll _ :: _ => Some path
  end.

(** Modelled from the spec: the tree of one method, kept as the routes that
    were inserted into it, oldest first.  Priorities and the compression of
    shared prefixes change the order of probing, not the result of a
    lookup, and are left out. *)
Definition node (H : Type) : Type := list (string * H).


(** Whether a pattern is one the tree accepts on its own (section 4.1): a
    wildcard has a name, a catch-all is the last segment and follows a
    slash. *)
Fixpoint well_formed (prev : option token) (ts : list token) : option string :=
  match ts with
  | [] => None
  | Wild name :: ts' =>
    if String.eqb name "" then Some "wildcards must be named with a non-empty name"
    else well_formed (Some (Wild name)) ts'
  | CatchAll name :: ts' =>
    if String.eqb name "" then Some "wildcards must be named with a non-empty name"
    else match ts' with
         | _ :: _ => Some "catch-all routes are only allowed at the end of the path"
         | [] =>
           match prev with
           | Some (Lit b) =>
             if Ascii.eqb b "/" then None else Some "no / before catch-all"
           | _ => Some "no / before catch-all"
           end
         end
  | Lit b :: ts' => well_formed (Some (Lit b)) ts'
  end.

(** Whether two patterns meet at one position of the tree with wildcards
    that cannot share it: different wildcards, or a wildcard and a literal. *)
Fixpoint conflict (p q : list token) : bool :=
  match p, q with
  | Lit a :: p', Lit b :: q' => if Ascii.eqb a b then conflict p' q' else false
  | Wild x :: p', Wild y :: q' => if String.eqb x y then conflict p' q' else true
  | CatchAll x :: _, CatchAll y :: _ => negb (String.eqb x y)
  | [], _ | _, [] => false
  | _, _ => true
  end.

(** Modelled from the spec: insertion (section 4.1).  A rejected insertion
    leaves the tree as it was. *)
Definition addRoute {H : Type} (n : node H) (pattern : string) (h : H)
    : node H * option string :=
  match well_formed None (tokens pattern) with
  | Some msg => (n, Some msg)
  | None =>
    if existsb (fun route => String.eqb (fst route) pattern) n
    then (n, Some "a handle is already registered for this path")
    else if existsb (fun route => conflict (tokens pattern) (tokens (fst route))) n
    then (n, Some "wildcard route conflicts with an existing route")
    else (n ++ [(pattern, h)], None)
  end.

(** The first route of the tree that matches [path]. *)
Fixpoint first_match {H : Type} (n : node H) (path : string)
    : option (H * Params) :=
  match n with
  | [] => None
  | (pattern, h) :: rest =>
    match match_tokens (tokens pattern) path with
    | Some ps => Some (h, ps)
    | None => first_match rest path
    end
  end.

(** Modelled from the spec: lookup (section 4.2).  The trailing-slash hint
    is found by probing the tree with the final slash of the path added or
    removed. *)
Definition getValue {H : Type} (n : node H) (path : string)
    : option H * Params * bool :=
  match first_match n path with
  | Some (h, ps) => (Some h, ps, false)
  | None =>
    (None, [],
     match first_match n (toggle_slash path) with
     | Some _ => true
     | None => false
     end)
  end.

(** The first route of the tree that matches [path] when case is ignored,
    as the corrected path. *)
Fixpoint first_match_ci {H : Type} (n : node H) (path : string) : option string :=
  match n with
  | [] => None
  | (pattern, _) :: rest =>
    match match_tokens_ci (tokens pattern) path with
    | Some fixed => Some fixed
    | None => first_match_ci rest path
    end
  end.

(** Modelled from the spec: the case-insensitive search (section 4.3). *)
Definition findCaseInsensitivePath {H : Type} (n : node H) (path : string)
    (fixTrailingSlash : bool) : string * bool :=
  match first_match_ci n path with
  | Some fixed => (fixed, true)
  | None =>
    if fixTrailingSlash then
      match first_match_ci n (toggle_slash path) with
      | Some fixed => (fixed, true)
      | None => ("", false)
      end
    else ("", false)
  end.

(** The segments of a path: the runs of bytes between its slashes. *)
Fixpoint segments_from (cur : string) (path : string) : list string :=
  match path with
  | EmptyString => [cur]
  | String a rest =>
    if Ascii.eqb a "/" then cur :: segments_from "" rest
    else segments_from (cur +:+ String a "") rest
  end.

(** One segment against the segments kept so far, newest first: an empty
    segment and [.] change nothing, [..] pops the previous segment. *)
Definition clean_step (kept : list string) (seg : string) : list string :=
  if String.eqb seg "" || String.eqb seg "." then kept
  else if String.eqb seg ".." then tail kept
  else seg :: kept.

(** Modelled from the spec: [CleanPath] (section 4.3): repeated slashes are
    collapsed, [..] pops the previous segment, [.] is a no-op.  The result
    is rooted and keeps a final slash. *)
Definition CleanPath (path : string) : string :=
  let segs := segments_from "" path in
  let kept := rev (fold_left clean_step segs []) in
  let body := fold_left (fun acc seg => acc +:+ "/" +:+ seg) kept "" in
  let trailing := match last segs with
                  | Some seg => String.eqb seg "" || String.eqb seg "."
                  | None => false
                  end in
  if String.eqb body "" then "/"
  else if trailing then body +:+ "/" else body.

(** [net/url]'s [String] on a URL that has a path and a query only, no byte
    of which needs escaping. *)
Definition URL_String (u : URL) : string :=
  if String.eqb (URL_RawQuery u) "" then URL_Path u
  else URL_Path u +:+ "?" +:+ URL_RawQuery u.

End SpecTree.

#[export] Instance spec_tree {H : Type} : Tree H (SpecTree.node H) := {|
  new_node := [];
  addRoute := SpecTree.addRoute;
  getValue := SpecTree.getValue;
  findCaseInsensitivePath := SpecTree.findCaseInsensitivePath
|}.

#[export] Instance spec_pathops : PathOps := {|
  CleanPath := SpecTree.CleanPath;
  URL_String := SpecTree.URL_String
|}.

(** ** Notions used to state the properties *)

Section Notions.
Context {Ctx St node : Type}.
Context {tree : Tree (@Handler Ctx St) node}.

(** The nested continuation chain [m1(c, () => m2(c, () => ... mn(c, k)))]
    with innermost continuation [k]. *)
Definition nested (ms : list (@Middleware Ctx St)) (k : @Handler Ctx St)
    : @Handler Ctx St :=
  fun c => fold_right (fun fn next => fn c next) (k c) ms.

(** The handler that does nothing. *)
Definition skip : @Handler Ctx St := fun _ s => s.

(** A middleware that never invokes its continuation: what it does is the
    same whatever the continuation is. *)
Definition ignores_next (fn : @Middleware Ctx St) : Prop :=
  ∀ c next next' s, fn c next s = fn c next' s.

(** Whether the tree of [method] holds a handler at exactly [path]. *)
Definition has_handler (r : Router (@Handler Ctx St) node)
    (method path : string) : bool :=
  match tree_of r method with
  | Some n =>
    match getValue n path with
    | (Some _, _, _) => true
    | (None, _, _) => false
    end
  | None => false
  end.

(** The methods [allowed] reports, OPTIONS apart: every registered method
    but OPTIONS for the server-wide path, and for any other path those,
    other than the request's, that have a handler at the path. *)
Definition offered (r : Router (@Handler Ctx St) node)
    (path reqMethod method : string) : bool :=
  negb (String.eqb method "OPTIONS") &&
  (String.eqb path "*" ||
   (negb (String.eqb method reqMethod) && has_handler r method path)).



(** [r.Methods = ms], every other field kept. *)
Definition with_Methods (r : Router (@Handler Ctx St) node) (ms : list string)
    : Router (@Handler Ctx St) node :=
  {| trees := trees r;
     RedirectTrailingSlash := RedirectTrailingSlash r;
     RedirectFixedPath := RedirectFixedPath r;
     HandleMethodNotAllowed := HandleMethodNotAllowed r;
     HandleOPTIONS := HandleOPTIONS r;
     NotFound := NotFound r;
     MethodNotAllowed := MethodNotAllowed r;
     Methods := ms |}.

(** A middleware that runs [pre], invokes its continuation once and then
    runs [post]. *)
Definition wrap (pre post : @Handler Ctx St) : @Middleware Ctx St :=
  fun c next s => post c (next (pre c s)).

(** Whether an action is the call of a handler. *)
Definition is_call (a : Action (@Handler Ctx St)) : bool :=
  match a with
  | Call _ => true
  | Do _ => false
  end.


End Notions.

(** ** Concrete routers and requests

    The program state of these runs is the list of marks the handlers
    leave, as the [calls] slice of [TestRouteMiddleware]; the trees are
    those of [SpecTree]. *)

Module Demo.

Abbreviation handler := (@Handler unit (list nat)).
Abbreviation middleware := (@Middleware unit (list nat)).
Abbreviation router := (Router handler (SpecTree.node handler)).

(** A handler that leaves the mark [k]. *)
Definition mark (k : nat) : handler := fun _ s => s ++ [k].

(** A middleware that leaves the mark [k] and returns without invoking its
    continuation. *)
Definition block (k : nat) : middleware := fun _ _ s => s ++ [k].

(** A middleware that leaves [before], invokes its continuation and then
    leaves [after]. *)
Definition around (before after : nat) : middleware :=
  fun _ next s => next (s ++ [before]) ++ [after].

(** A request as [handle] of [router_test.go] sets it up. *)
Definition request (method path : string) : Context :=
  {| Method := method; Path := path;
     Url := {| URL_Path := path; URL_RawQuery := "" |}; CParams := [] |}.

(** [router.GET("/path", ...)] on a new router. *)
Definition get_path : router := fst (GET New "/path" (mark 1) []).

(** [router.POST("/path", ...)] on a new router. *)
Definition post_path : router := fst (POST New "/path" (mark 1) []).




(** [POST /path] registered and [router.HandleOPTIONS = false]. *)
Definition post_path_options_off : router :=
  {| trees := trees post_path;
     RedirectTrailingSlash := RedirectTrailingSlash post_path;
     RedirectFixedPath := RedirectFixedPath post_path;
     HandleMethodNotAllowed := HandleMethodNotAllowed post_path;
     HandleOPTIONS := false;
     NotFound := NotFound post_path;
     MethodNotAllowed := MethodNotAllowed post_path;
     Methods := Methods post_path |}.

(** A registration that [addRoute] rejects, on a new router: the catch-all
    is not the last segment. *)
Definition failed_put : router * Outcome :=
  Register New "PUT" "/a/*x/b" (mark 1) [].


End Demo.

(** ** A host for whole runs

    A program state with the context in it, the calls made on the response,
    the marks handlers leave and the paths handed to the file server; the
    single context pointer and the single file system are [tt]. *)

Module Harness.

Record world : Type := mkWorld {
  w_ctx : Context;
  w_sent : list Effect;
  w_calls : list nat;
  w_served : list string
}.

Definition with_ctx (w : world) (c : Context) : world :=
  {| w_ctx := c; w_sent := w_sent w; w_calls := w_calls w;
     w_served := w_served w |}.

(** An assignment changes the context; a method call is recorded. *)
Definition ctx_do (e : Effect) (w : world) : world :=
  let c := w_ctx w in
  match e with
  | SetParams ps => with_ctx w (mkContext (Method c) (Path c) (Url c) ps)
  | SetURLPath p =>
    with_ctx w (mkContext (Method c) (Path c) (URL_with_Path (Url c) p) (CParams c))
  | SetPath p => with_ctx w (mkContext (Method c) p (Url c) (CParams c))
  | DoRedirect _ _ | SetHeader _ _ | DoError _ _ =>
    {| w_ctx := c; w_sent := w_sent w ++ [e]; w_calls := w_calls w;
       w_served := w_served w |}
  end.

(** The file server is asked for [c.URL.Path]. *)
Definition serve_file (w : world) : world :=
  {| w_ctx := w_ctx w; w_sent := w_sent w; w_calls := w_calls w;
     w_served := w_served w ++ [URL_Path (Url (w_ctx w))] |}.

(** A handler that leaves the mark [k]. *)
Definition hit (k : nat) : @Handler unit world :=
  fun _ w => {| w_ctx := w_ctx w; w_sent := w_sent w;
                w_calls := w_calls w ++ [k]; w_served := w_served w |}.

(** The state in which a request comes in. *)
Definition incoming (method path : string) : world :=
  {| w_ctx := {| Method := method; Path := path;
                 Url := {| URL_Path := path; URL_RawQuery := "" |};
                 CParams := [] |};
     w_sent := []; w_calls := []; w_served := [] |}.

End Harness.

#[export] Instance harness_host : Host unit Harness.world unit := {|
  ctx_get := fun _ w => Harness.w_ctx w;
  ctx_do := fun _ e w => Harness.ctx_do e w;
  serve_file := fun _ _ w => Harness.serve_file w
|}.

Module Runs.

Abbreviation router :=
  (Router (@Handler unit Harness.world)
          (SpecTree.node (@Handler unit Harness.world))).

(** [router.NotFound = h], every other field kept. *)
Definition with_NotFound (r : router) (h : @Handler unit Harness.world) : router :=
  {| trees := trees r;
     RedirectTrailingSlash := RedirectTrailingSlash r;
     RedirectFixedPath := RedirectFixedPath r;
     HandleMethodNotAllowed := HandleMethodNotAllowed r;
     HandleOPTIONS := HandleOPTIONS r;
     NotFound := Some h;
     MethodNotAllowed := MethodNotAllowed r;
     Methods := Methods r |}.

(** The two routers of [TestRouterChaining]. *)
Definition router2 : router := fst (POST New "/bar" (Harness.hit 2) []).

Definition router1 : router :=
  fst (POST (with_NotFound New (HandleFunc router2 ["POST"]))
            "/foo" (Harness.hit 1) []).

(** The router of [TestRouter]. *)
Definition user_router : router :=
  fst (Register New "GET" "/user/:name" (Harness.hit 1) []).

(** The router of [TestRouterServeFiles], once [ServeFiles] went through. *)
Definition file_router : router := fst (ServeFiles New "/*filepath" tt).

End Runs.

(** ** Middleware composition *)

Section ComposeTheory.
Context {Ctx St : Type}.

Implicit Types (m ms : list (@Middleware Ctx St)) (h k : @Handler Ctx St).

(** One step of [dispatch], as the body of the closure reads. *)
Lemma dispatch_step m (c : Ctx) (i : nat) :
  dispatch m c i =
  match m !! i with
  | Some fn => fn c (dispatch m c (i + 1))
  | None => fun s => s
  end.
Proof.
  rewrite dispatch_equation_1. unfold dispatch_unfold_clause_1.
  destruct (m !! i); reflexivity.
Qed.

(** From index [i] on, [dispatch] is the nested chain of the middlewares
    that are left, with nothing innermost. *)
Lemma dispatch_nested m (c : Ctx) (i : nat) :
  dispatch m c i = nested (drop i m) skip c.
Proof.
  remember (length m - i) as d eqn:Hd.
  revert i Hd. induction d as [|d IH]; intros i Hd.
  - rewrite dispatch_step.
    destruct (m !! i) as [fn|] eqn:Hi.
    + apply lookup_lt_Some in Hi. unfold Middleware in *. lia.
    + assert (Hdrop : drop i m = []) by (apply drop_ge, lookup_ge_None_1; exact Hi).
      rewrite Hdrop. reflexivity.
  - rewrite dispatch_step.
    destruct (m !! i) as [fn|] eqn:Hi.
    + assert (Hdrop : drop i m = fn :: drop (S i) m) by (apply drop_S; exact Hi).
      rewrite Hdrop. rewrite Nat.add_1_r.
      rewrite (IH (S i)) by lia. reflexivity.
    + apply lookup_ge_None_1 in Hi. unfold Middleware in *. lia.
Qed.

(** [compose] is the nested chain with nothing innermost. *)
Lemma compose_nested m : compose m = nested m skip.
Proof.
  unfold compose. apply functional_extensionality. intros c.
  rewrite dispatch_nested. reflexivity.
Qed.

(** The chain of a list that is put together from two. *)
Lemma nested_app ms ms' k (c : Ctx) :
  nested (ms ++ ms') k c = nested ms (nested ms' k) c.
Proof.
  unfold nested. rewrite fold_right_app. reflexivity.
Qed.

(** Behind a middleware that never invokes its continuation, nothing of the
    chain is run. *)
Lemma nested_cut ms fn ms' k (c : Ctx) :
  ignores_next fn ->
  nested (ms ++ fn :: ms') k c = nested (ms ++ [fn]) skip c.
Proof.
  intros Hfn. rewrite !nested_app.
  unfold nested at 1 3. f_equal.
  apply functional_extensionality. intros s. simpl. apply Hfn.
Qed.

End ComposeTheory.

Section RegisterTheory.
Context {Ctx St node : Type}.
Context {tree : Tree (@Handler Ctx St) node}.

(** C1 (as amended).  What [Register] installs for a non-empty middleware
    list [ms] and handler [h] is one callable that runs the nested chain
    [m1(c, () => m2(c, () => ... mn(c, () => {})))] and, once the chain has
    returned, runs [h]: registering with middlewares is registering that
    callable with none.  When a middleware of the list never invokes its
    continuation, the middlewares after it are not run, and [h] is run all
    the same, on the state the cut chain leaves. *)
Theorem Register_installs_chain_then_handler
    (ms : list (@Middleware Ctx St)) (h : @Handler Ctx St) :
  (∀ c s, middlewareHandler ms h c s = h c (nested ms skip c s)) ∧
  (∀ (r : Router (@Handler Ctx St) node) (method path : string),
     ms ≠ [] ->
     Register r method path h ms
     = Register r method path (middlewareHandler ms h) []) ∧
  (∀ pre fn post,
     ms = pre ++ fn :: post ->
     ignores_next fn ->
     ∀ c s, middlewareHandler ms h c s = h c (nested (pre ++ [fn]) skip c s)).
Proof.
  assert (Hrun : ∀ c s, middlewareHandler ms h c s = h c (nested ms skip c s)).
  { intros c s. unfold middlewareHandler. rewrite compose_nested. reflexivity. }
  split; [exact Hrun|]. split.
  - intros r method path Hms. unfold Register.
    destruct ms as [|fn rest]; [congruence|]. reflexivity.
  - intros pre fn post -> Hfn c s.
    rewrite Hrun. rewrite (nested_cut pre fn post skip c Hfn). reflexivity.
Qed.

End RegisterTheory.

(** C1, a run.  The list [[around 1 5; block 2; around 3 4]] with handler
    [mark 9]: the second middleware returns without invoking its
    continuation, the third is not run, and the handler is. *)
Lemma Register_installs_chain_then_handler_run :
  ignores_next (Demo.block 2) ∧
  middlewareHandler [Demo.around 1 5; Demo.block 2; Demo.around 3 4]
    (Demo.mark 9) tt [] = [1; 2; 5; 9] ∧
  nested [Demo.around 1 5; Demo.block 2] skip tt [] = [1; 2; 5].
Proof.
  pose proof (Register_installs_chain_then_handler (node := SpecTree.node Demo.handler)
                [Demo.around 1 5; Demo.block 2; Demo.around 3 4] (Demo.mark 9))
    as (_ & _ & Hcut).
  assert (Hblock : ignores_next (Demo.block 2)) by (intros c next next' s; reflexivity).
  split; [exact Hblock|]. split.
  - rewrite (Hcut [Demo.around 1 5] (Demo.block 2) [Demo.around 3 4] eq_refl Hblock).
    reflexivity.
  - reflexivity.
Defined.

(** C1, as stated, fails.  With the single middleware [block 1], which never
    invokes its continuation, and handler [mark 9], the nested chain
    [m1(c, h)] leaves the mark 1 alone; the installed callable leaves 1 and
    then 9: the handler is run. *)
Lemma handler_runs_behind_blocking_middleware :
  ignores_next (Demo.block 1) ∧
  nested [Demo.block 1] (Demo.mark 9) tt [] = [1] ∧
  middlewareHandler [Demo.block 1] (Demo.mark 9) tt [] = [1; 9] ∧
  middlewareHandler [Demo.block 1] (Demo.mark 9)
    ≠ nested [Demo.block 1] (Demo.mark 9).
Proof.
  split; [intros c next next' s; reflexivity|].
  split; [reflexivity|]. split; [reflexivity|].
  intros Heq.
  assert (Hrun : middlewareHandler [Demo.block 1] (Demo.mark 9) tt []
                 = nested [Demo.block 1] (Demo.mark 9) tt [])
    by (rewrite Heq; reflexivity).
  discriminate Hrun.
Qed.

(** ** Strings *)

Section StringFacts.

Lemma append_nil_l (s : string) : "" +:+ s = s.
Proof. reflexivity. Qed.

Lemma append_cons (a : ascii) (s t : string) :
  String a s +:+ t = String a (s +:+ t).
Proof. reflexivity. Qed.



Lemma length_append (s t : string) :
  String.length (s +:+ t) = String.length s + String.length t.
Proof.
  induction s as [|a s IH]; [reflexivity|].
  rewrite append_cons. simpl. rewrite IH. reflexivity.
Qed.

Lemma length_zero (s : string) : String.length s = 0 <-> s = "".
Proof.
  destruct s; simpl; split; intros Hs; try reflexivity; discriminate Hs.
Qed.

Lemma nonempty_length (s : string) : (0 <? String.length s) = true <-> s ≠ "".
Proof.
  rewrite Nat.ltb_lt. destruct s; simpl; split; intros Hs.
  - lia.
  - congruence.
  - discriminate.
  - lia.
Qed.

(** A string of length above one whose last byte is a slash is some string
    followed by a slash, and that string is what dropping the last byte
    leaves. *)
Lemma ends_in_slash_true (path : string) :
  ends_in_slash path = true ->
  1 < String.length path ∧ path = drop_last_byte path +:+ "/".
Proof.
  unfold ends_in_slash, drop_last_byte. intros Hpath.
  apply andb_true_iff in Hpath as [Hlen Hlast].
  apply Nat.ltb_lt in Hlen. split; [exact Hlen|].
  clear Hlen. induction path as [|a path IH]; [discriminate Hlast|].
  simpl String.length in *. rewrite Nat.sub_succ, Nat.sub_0_r in *.
  destruct path as [|b path].
  - simpl in *. destruct (Ascii.eqb_spec a "/"); [subst; reflexivity|discriminate].
  - simpl String.length in *. simpl String.get in Hlast.
    rewrite Nat.sub_succ, Nat.sub_0_r in IH.
    simpl String.substring. rewrite append_cons. f_equal.
    apply IH. exact Hlast.
Qed.

(** Dropping the last byte undoes appending one. *)
Lemma drop_last_byte_append (q : string) (b : ascii) :
  drop_last_byte (q +:+ String b "") = q.
Proof.
  unfold drop_last_byte. rewrite length_append. simpl String.length.
  rewrite Nat.add_1_r, Nat.sub_succ, Nat.sub_0_r.
  induction q as [|a q IH]; [reflexivity|].
  rewrite append_cons. simpl. rewrite IH. reflexivity.
Qed.

(** The last byte of a string that ends in a slash is seen as one. *)
Lemma ends_in_slash_append (q : string) :
  q ≠ "" -> ends_in_slash (q +:+ "/") = true.
Proof.
  intros Hq. unfold ends_in_slash. rewrite length_append. simpl String.length.
  apply andb_true_iff. split.
  - apply Nat.ltb_lt. destruct q; [congruence|simpl; lia].
  - rewrite Nat.add_1_r, Nat.sub_succ, Nat.sub_0_r. clear Hq.
    induction q as [|a q IH]; [reflexivity|].
    rewrite append_cons. simpl. exact IH.
Qed.

End StringFacts.

(** ** The Allow list *)

Section AllowedTheory.
Context {Ctx St node : Type}.
Context {tree : Tree (@Handler Ctx St) node}.

Implicit Types (r : Router (@Handler Ctx St) node) (order sel : list string).

(** Both loops of [allowed] add the methods that are [offered] and skip the
    others. *)
Lemma allowed_star_step_offered r (reqMethod allow method : string) :
  allowed_star_step allow method
  = if offered r "*" reqMethod method then add_method allow method else allow.
Proof.
  unfold allowed_star_step, offered.
  destruct (String.eqb method "OPTIONS"); reflexivity.
Qed.

Lemma allowed_path_step_offered r (path reqMethod allow method : string) :
  path ≠ "*" ->
  allowed_path_step r path reqMethod allow method
  = if offered r path reqMethod method then add_method allow method else allow.
Proof.
  intros Hpath. apply String.eqb_neq in Hpath.
  unfold allowed_path_step, offered, has_handler. rewrite Hpath.
  destruct (String.eqb method reqMethod), (String.eqb method "OPTIONS");
    simpl; try reflexivity.
  destruct (tree_of r method) as [n|]; [|reflexivity].
  destruct (getValue n path) as [[[h|] ps] tsr]; reflexivity.
Qed.

(** Loops with bodies that agree everywhere compute the same. *)
Lemma fold_left_pointwise (f g : string -> string -> string) order (allow : string) :
  (∀ a m, f a m = g a m) -> fold_left f order allow = fold_left g order allow.
Proof.
  intros Hfg. revert allow.
  induction order as [|m order IH]; intros allow; [reflexivity|].
  simpl. rewrite Hfg. apply IH.
Qed.

(** A loop that adds the elements that pass a test adds the filtered list. *)
Lemma fold_left_add_filter (keep : string -> bool) order (allow : string) :
  fold_left (fun a m => if keep m then add_method a m else a) order allow
  = fold_left add_method (filter (fun m => keep m = true) order) allow.
Proof.
  revert allow. induction order as [|m order IH]; intros allow; [reflexivity|].
  simpl fold_left. rewrite IH. rewrite filter_cons.
  destruct (keep m) eqn:Hm.
  - rewrite decide_True by reflexivity. reflexivity.
  - rewrite decide_False by discriminate. reflexivity.
Qed.

(** [allowed] in one piece: the offered methods in visit order, added one
    after the other, and OPTIONS at the end of what is not empty. *)
Lemma allowed_filter r order (path reqMethod : string) :
  allowed r order path reqMethod
  = let allow := fold_left add_method
                   (filter (fun m => offered r path reqMethod m = true) order) "" in
    if 0 <? String.length allow then allow +:+ ", OPTIONS" else allow.
Proof.
  unfold allowed. cbv zeta.
  assert (Hloop :
    (if String.eqb path "*"
     then fold_left allowed_star_step order ""
     else fold_left (allowed_path_step r path reqMethod) order "")
    = fold_left add_method
        (filter (fun m => offered r path reqMethod m = true) order) "").
  { rewrite <- fold_left_add_filter.
    destruct (String.eqb path "*") eqn:Hpath.
    - apply String.eqb_eq in Hpath. subst path.
      apply fold_left_pointwise.
      intros allow m. apply allowed_star_step_offered.
    - apply String.eqb_neq in Hpath.
      apply fold_left_pointwise.
      intros allow m. apply allowed_path_step_offered. exact Hpath. }
  rewrite Hloop. reflexivity.
Qed.




(** The list stays empty exactly when every method added has no name. *)
Lemma fold_add_method_empty sel (allow : string) :
  fold_left add_method sel allow = "" <-> allow = "" ∧ ∀ m, m ∈ sel -> m = "".
Proof.
  revert allow. induction sel as [|m sel IH]; intros allow; simpl.
  - split; [intros ->; split; [reflexivity|]|intros [-> _]; reflexivity].
    intros m Hm. inversion Hm.
  - rewrite IH. unfold add_method.
    destruct allow as [|a allow]; simpl.
    + split.
      * intros [-> Hsel]. split; [reflexivity|].
        intros m' Hm'. apply elem_of_cons in Hm' as [->|Hm']; auto.
      * intros [_ Hsel]. split.
        -- apply Hsel. left.
        -- intros m' Hm'. apply Hsel. right. exact Hm'.
    + split; intros [Habs _]; discriminate Habs.
Qed.


Lemma range_order_elem_of r order (m : string) :
  range_order r order -> m ∈ order <-> is_Some (tree_of r m).
Proof.
  unfold range_order, tree_of. intros Horder. rewrite Horder.
  rewrite list_elem_of_fmap. split.
  - intros [[m' n] [-> Hn]]. apply elem_of_map_to_list in Hn. eauto.
  - intros [n Hn]. exists (m, n). split; [reflexivity|].
    apply elem_of_map_to_list. exact Hn.
Qed.


End AllowedTheory.


(** ** Dispatch *)

Section HandleTheory.
Context {Ctx St node : Type}.
Context {tree : Tree (@Handler Ctx St) node} {pathops : PathOps}.

Implicit Types (r : Router (@Handler Ctx St) node) (order : list string)
  (c : Context) (root : node).

(** X2.  When control leaves the first block of [Handle]: the method has no
    tree, or its tree has no handler for the path and neither redirect is
    taken. *)
Lemma lookupStep_None_iff r c :
  lookupStep r c = None <->
  tree_of r (Method c) = None ∨
  ∃ root ps tsr,
    tree_of r (Method c) = Some root ∧
    getValue root (Path c) = (None, ps, tsr) ∧
    (Method c = "CONNECT" ∨ Path c = "/" ∨
     ((tsr = false ∨ RedirectTrailingSlash r = false) ∧
      (RedirectFixedPath r = false ∨
       snd (findCaseInsensitivePath root (CleanPath (Path c))
              (RedirectTrailingSlash r)) = false))).
Proof.
  unfold lookupStep.
  destruct (tree_of r (Method c)) as [root|]; [|split; auto].
  destruct (getValue root (Path c)) as [[[h|] ps] tsr] eqn:Hget.
  { split; [discriminate|].
    intros [Habs|(root' & ps' & tsr' & Hroot & Habs & _)]; congruence. }
  destruct (String.eqb_spec (Method c) "CONNECT") as [Hm|Hm]; simpl.
  { split; [|reflexivity]. intros _. right. exists root, ps, tsr. auto. }
  destruct (String.eqb_spec (Path c) "/") as [Hp|Hp]; simpl.
  { split; [|reflexivity]. intros _. right. exists root, ps, tsr. auto. }
  destruct (findCaseInsensitivePath root (CleanPath (Path c))
              (RedirectTrailingSlash r)) as [fixedPath found] eqn:Hfix.
  split.
  - intros Hnone. right. exists root, ps, tsr.
    split; [reflexivity|]. split; [exact Hget|]. right. right.
    rewrite Hfix.
    destruct tsr, (RedirectTrailingSlash r), (RedirectFixedPath r), found;
      simpl in *; try discriminate Hnone; auto.
  - intros [Habs|(root' & ps' & tsr' & Hroot & Hget' & Hcase)]; [discriminate|].
    injection Hroot as <-. rewrite Hget in Hget'. injection Hget' as <- <-.
    destruct Hcase as [Habs|[Habs|[Htsr Hfixed]]]; [congruence..|].
    rewrite Hfix in Hfixed. simpl in Hfixed.
    destruct Htsr as [->| ->], Hfixed as [->| ->];
      rewrite ?andb_false_r; simpl; try reflexivity;
      destruct (RedirectFixedPath r); reflexivity.
Qed.

(** C3.  When the method has a tree that finds no handler for the path but
    reports a trailing-slash opportunity, the method is not CONNECT, the
    path is not [/] and [RedirectTrailingSlash] is on, the dispatch sets
    [c.URL.Path] and [c.Path] to the path with its final slash toggled and
    redirects to that URL: the final slash is removed when the path is
    longer than one byte and ends in a slash, and a slash is appended
    otherwise; the status is 301 for GET and 307 for every other method. *)
Theorem Handle_redirects_trailing_slash r order c root ps :
  tree_of r (Method c) = Some root ->
  getValue root (Path c) = (None, ps, true) ->
  Method c ≠ "CONNECT" ->
  Path c ≠ "/" ->
  RedirectTrailingSlash r = true ->
  ∃ (p : string) (code : Z),
    Handle r order c
    = [Do (SetURLPath p); Do (SetPath p);
       Do (DoRedirect code (URL_String (URL_with_Path (Url c) p)))] ∧
    ((Method c = "GET" ∧ code = 301%Z) ∨ (Method c ≠ "GET" ∧ code = 307%Z)) ∧
    ((1 < String.length (Path c) ∧ Path c = p +:+ "/") ∨
     (¬ (1 < String.length (Path c) ∧ ∃ q, Path c = q +:+ "/") ∧
      p = Path c +:+ "/")).
Proof.
  intros Hroot Hget Hmethod Hpath Hflag.
  exists (toggle_slash (Path c)),
         (if negb (String.eqb (Method c) "GET") then 307%Z else 301%Z).
  split.
  { unfold Handle, lookupStep. rewrite Hroot, Hget, Hflag.
    apply String.eqb_neq in Hmethod, Hpath. rewrite Hmethod, Hpath.
    reflexivity. }
  split.
  { destruct (String.eqb_spec (Method c) "GET"); simpl; auto. }
  unfold toggle_slash. destruct (ends_in_slash (Path c)) eqn:Hends.
  - left. apply ends_in_slash_true. exact Hends.
  - right. split; [|reflexivity].
    intros (Hlen & q & Hq).
    assert (Hq' : q ≠ "").
    { intros ->. rewrite Hq in Hlen. simpl in Hlen. lia. }
    rewrite Hq, (ends_in_slash_append q Hq') in Hends. discriminate Hends.
Qed.


(** C5.  When the first block of [Handle] neither finds a handler nor
    redirects, the automatic OPTIONS reply does not apply,
    [HandleMethodNotAllowed] is on and the allowed methods are not empty,
    the dispatch sets the Allow header and then calls the custom
    [MethodNotAllowed] handler if there is one and raises the 405 error
    through [c.Error] otherwise; the only handler it can call is that
    custom handler, so not the not-found handler in its own right. *)
Theorem Handle_method_not_allowed r order c :
  lookupStep r c = None ->
  ¬ (Method c = "OPTIONS" ∧ HandleOPTIONS r = true) ->
  HandleMethodNotAllowed r = true ->
  allowed r order (Path c) (Method c) ≠ "" ->
  Handle r order c
  = Do (SetHeader "Allow" (allowed r order (Path c) (Method c))) ::
    match MethodNotAllowed r with
    | Some h => [Call h]
    | None => [Do (DoError 405 "Method Not Allowed")]
    end ∧
  ∀ h, Call h ∈ Handle r order c -> MethodNotAllowed r = Some h.
Proof.
  intros Hstep Hoptions Hflag Hallow.
  assert (Htrace : Handle r order c
    = Do (SetHeader "Allow" (allowed r order (Path c) (Method c))) ::
      match MethodNotAllowed r with
      | Some h => [Call h]
      | None => [Do (DoError 405 "Method Not Allowed")]
      end).
  { unfold Handle, fallbackStep. rewrite Hstep, Hflag.
    apply nonempty_length in Hallow. rewrite Hallow.
    destruct (String.eqb_spec (Method c) "OPTIONS") as [Hm|Hm]; simpl; [|reflexivity].
    destruct (HandleOPTIONS r); [|reflexivity].
    exfalso. apply Hoptions. split; [exact Hm|reflexivity]. }
  split; [exact Htrace|].
  intros h. rewrite Htrace. intros Hin.
  apply elem_of_cons in Hin as [Hin|Hin]; [discriminate Hin|].
  destruct (MethodNotAllowed r) as [h'|];
    apply list_elem_of_singleton in Hin; congruence.
Qed.

(** X1.  The fixed-path branch of [Handle], lines 253-262: [c.Path] is set to the
    corrected path, and the redirect goes to [c.URL.String()] of the URL as
    the request brought it, for [c.URL.Path] is not assigned here. *)
Lemma Handle_fixed_path_redirect r order c root ps tsr (fixedPath : string) :
  tree_of r (Method c) = Some root ->
  getValue root (Path c) = (None, ps, tsr) ->
  Method c ≠ "CONNECT" ->
  Path c ≠ "/" ->
  tsr && RedirectTrailingSlash r = false ->
  RedirectFixedPath r = true ->
  findCaseInsensitivePath root (CleanPath (Path c)) (RedirectTrailingSlash r)
  = (fixedPath, true) ->
  Handle r order c
  = [Do (SetPath fixedPath);
     Do (DoRedirect (if negb (String.eqb (Method c) "GET") then 307%Z else 301%Z)
                    (URL_String (Url c)))].
Proof.
  intros Hroot Hget Hmethod Hpath Htsr Hflag Hfix.
  unfold Handle, lookupStep. rewrite Hroot, Hget, Htsr, Hflag, Hfix.
  apply String.eqb_neq in Hmethod, Hpath. rewrite Hmethod, Hpath.
  reflexivity.
Qed.

End HandleTheory.

(** C3, a run: only [GET /path] registered, [GET /path/] asked for. *)
Lemma Handle_redirects_trailing_slash_run :
  Handle Demo.get_path ["GET"] (Demo.request "GET" "/path/")
  = [Do (SetURLPath "/path"); Do (SetPath "/path"); Do (DoRedirect 301 "/path")] ∧
  ∃ (p : string) (code : Z),
    Handle Demo.get_path ["GET"] (Demo.request "GET" "/path/")
    = [Do (SetURLPath p); Do (SetPath p);
       Do (DoRedirect code
             (URL_String (URL_with_Path (Url (Demo.request "GET" "/path/")) p)))] ∧
    ((Method (Demo.request "GET" "/path/") = "GET" ∧ code = 301%Z) ∨
     (Method (Demo.request "GET" "/path/") ≠ "GET" ∧ code = 307%Z)) ∧
    ((1 < String.length (Path (Demo.request "GET" "/path/")) ∧
      Path (Demo.request "GET" "/path/") = p +:+ "/") ∨
     (¬ (1 < String.length (Path (Demo.request "GET" "/path/")) ∧
         ∃ q, Path (Demo.request "GET" "/path/") = q +:+ "/") ∧
      p = Path (Demo.request "GET" "/path/") +:+ "/")).
Proof.
  split; [reflexivity|].
  apply (Handle_redirects_trailing_slash Demo.get_path ["GET"]
           (Demo.request "GET" "/path/") [("/path", Demo.mark 1)] []).
  - reflexivity.
  - reflexivity.
  - discriminate.
  - discriminate.
  - reflexivity.
Defined.


(** C5, a run: only [POST /path] registered, [GET /path] asked for, no
    custom handler. *)
Lemma Handle_method_not_allowed_run :
  Handle Demo.post_path ["POST"] (Demo.request "GET" "/path")
  = [Do (SetHeader "Allow" "POST, OPTIONS");
     Do (DoError 405 "Method Not Allowed")] ∧
  (Handle Demo.post_path ["POST"] (Demo.request "GET" "/path")
   = Do (SetHeader "Allow"
           (allowed Demo.post_path ["POST"]
              (Path (Demo.request "GET" "/path"))
              (Method (Demo.request "GET" "/path")))) ::
     match MethodNotAllowed Demo.post_path with
     | Some h => [Call h]
     | None => [Do (DoError 405 "Method Not Allowed")]
     end ∧
   ∀ h, Call h ∈ Handle Demo.post_path ["POST"] (Demo.request "GET" "/path") ->
        MethodNotAllowed Demo.post_path = Some h).
Proof.
  split; [reflexivity|].
  apply (Handle_method_not_allowed Demo.post_path ["POST"]
           (Demo.request "GET" "/path")).
  - reflexivity.
  - intros [Hmethod _]. discriminate Hmethod.
  - reflexivity.
  - discriminate.
Defined.

(** C2, on the code.  With only [GET /path] registered and
    [RedirectFixedPath] on, [GET /PATH] has no exact match and no
    trailing-slash hint, and the case-insensitive search over the cleaned
    path finds [/path].  The dispatch sets [c.Path] to [/path], but the
    location it hands to [c.Redirect] is the request's own [/PATH], not the
    corrected path; the same holds for [GET /..//path]. *)
Lemma fixed_path_redirect_keeps_request_url :
  getValue (node := SpecTree.node Demo.handler)
    [("/path", Demo.mark 1)] "/PATH" = (None, [], false) ∧
  findCaseInsensitivePath (node := SpecTree.node Demo.handler)
    [("/path", Demo.mark 1)] (CleanPath "/PATH") true = ("/path", true) ∧
  Handle Demo.get_path ["GET"] (Demo.request "GET" "/PATH")
  = [Do (SetPath "/path"); Do (DoRedirect 301 "/PATH")] ∧
  Handle Demo.get_path ["GET"] (Demo.request "GET" "/..//path")
  = [Do (SetPath "/path"); Do (DoRedirect 301 "/..//path")].
Proof.
  repeat split; reflexivity.
Qed.

(** ** Registration *)

Section GuardTheory.
Context {Ctx St node FS : Type}.
Context {tree : Tree (@Handler Ctx St) node} {pathops : PathOps}
  {host : Host Ctx St FS}.

Implicit Types (r : Router (@Handler Ctx St) node) (h : @Handler Ctx St)
  (ms : list (@Middleware Ctx St)).

(** The guard of [Register] at a pattern that has a first byte. *)
Lemma Register_first_byte r (method : string) (b : ascii) (rest : string) h ms :
  Register r method (String b rest) h ms
  = if negb (Ascii.eqb b "/")
    then (r, GuardPanic ("path must begin with '/' in path '"
                         +:+ String b rest +:+ "'"))
    else
      let '(root', failure) :=
        addRoute (match trees_map r !! method with
                  | Some n => n
                  | None => new_node
                  end)
                 (String b rest)
                 (if 0 <? length ms then middlewareHandler ms h else h) in
      (with_trees r (Some (<[method := root']> (trees_map r))),
       match failure with
       | Some msg => RoutePanic msg
       | None => Done
       end).
Proof. reflexivity. Qed.

(** C7.  For a pattern whose first byte is not a slash, [Register] and each
    verb shortcut panic with the message of the guard and hand the router
    back exactly as it was: [trees] is not made, no root is created and no
    route is inserted. *)
Theorem Register_rejects_missing_slash r (method : string) (b : ascii)
    (rest : string) h ms :
  b ≠ "/"%char ->
  let path := String b rest in
  let failed := (r, GuardPanic ("path must begin with '/' in path '"
                                +:+ path +:+ "'")) in
  Register r method path h ms = failed ∧
  GET r path h ms = failed ∧
  HEAD r path h ms = failed ∧
  OPTIONS r path h ms = failed ∧
  POST r path h ms = failed ∧
  PUT r path h ms = failed ∧
  PATCH r path h ms = failed ∧
  DELETE r path h ms = failed.
Proof.
  intros Hb path failed.
  assert (Hguard : ∀ method', Register r method' path h ms = failed).
  { intros method'. unfold path. rewrite Register_first_byte.
    apply Ascii.eqb_neq in Hb. rewrite Hb. reflexivity. }
  unfold GET, HEAD, OPTIONS, POST, PUT, PATCH, DELETE.
  repeat split; apply Hguard.
Qed.

(** C9.  The guard of [Register] reads [path[0]] before anything else.  For
    a pattern that is not empty the read is in bounds, and the call ends in
    the guard's panic exactly when the first byte is not a slash.  For the
    empty pattern the read itself faults, index 0 out of range for length
    0: [Register] and each verb shortcut end in that fault, with the router
    untouched, and not in the guard's panic. *)
Theorem Register_guard_reads_first_byte r (method : string) h ms :
  (∀ path, path ≠ "" ->
     (∃ b, String.get 0 path = Some b) ∧
     ((∃ msg, snd (Register r method path h ms) = GuardPanic msg) <->
      String.get 0 path ≠ Some "/"%char)) ∧
  Register r method "" h ms = (r, IndexOutOfRange 0 0) ∧
  GET r "" h ms = (r, IndexOutOfRange 0 0) ∧
  HEAD r "" h ms = (r, IndexOutOfRange 0 0) ∧
  OPTIONS r "" h ms = (r, IndexOutOfRange 0 0) ∧
  POST r "" h ms = (r, IndexOutOfRange 0 0) ∧
  PUT r "" h ms = (r, IndexOutOfRange 0 0) ∧
  PATCH r "" h ms = (r, IndexOutOfRange 0 0) ∧
  DELETE r "" h ms = (r, IndexOutOfRange 0 0).
Proof.
  split; [|repeat split; reflexivity].
  intros [|b rest] Hpath; [congruence|].
  split; [exists b; reflexivity|].
  rewrite Register_first_byte. simpl String.get.
  destruct (Ascii.eqb_spec b "/") as [->|Hb]; simpl.
  - split; [|congruence].
    intros [msg Hmsg].
    destruct (addRoute _ _ _) as [root' [failure|]]; discriminate Hmsg.
  - split; [congruence|]. intros _. eexists. reflexivity.
Qed.

(** C10.  The field [Methods] is not written and not read: [New] leaves it
    nil; [Register], each verb shortcut and [ServeFiles] hand it back as it
    was and do the same whatever it holds; [allowed], [Handle] and [Routes]
    give the same result whatever it holds. *)
Theorem Methods_is_never_used r (names : list string) :
  Methods (New (Ctx := Ctx) (St := St) (node := node)) = [] ∧
  (∀ method path h ms,
     Methods (fst (Register r method path h ms)) = Methods r ∧
     Register (with_Methods r names) method path h ms
     = (with_Methods (fst (Register r method path h ms)) names,
        snd (Register r method path h ms))) ∧
  (∀ path h ms,
     Methods (fst (GET r path h ms)) = Methods r ∧
     Methods (fst (HEAD r path h ms)) = Methods r ∧
     Methods (fst (OPTIONS r path h ms)) = Methods r ∧
     Methods (fst (POST r path h ms)) = Methods r ∧
     Methods (fst (PUT r path h ms)) = Methods r ∧
     Methods (fst (PATCH r path h ms)) = Methods r ∧
     Methods (fst (DELETE r path h ms)) = Methods r) ∧
  (∀ path (root : FS),
     Methods (fst (ServeFiles r path root)) = Methods r ∧
     ServeFiles (with_Methods r names) path root
     = (with_Methods (fst (ServeFiles r path root)) names,
        snd (ServeFiles r path root))) ∧
  (∀ order path reqMethod,
     allowed (with_Methods r names) order path reqMethod
     = allowed r order path reqMethod) ∧
  (∀ order c,
     Handle (with_Methods r names) order c = Handle r order c) ∧
  (∀ order,
     Routes (with_Methods r names) order = Routes r order).
Proof.
  assert (Hreg : ∀ method path h ms,
     Methods (fst (Register r method path h ms)) = Methods r ∧
     Register (with_Methods r names) method path h ms
     = (with_Methods (fst (Register r method path h ms)) names,
        snd (Register r method path h ms))).
  { intros method path h ms. unfold Register.
    destruct (String.get 0 path) as [b|]; [|split; reflexivity].
    destruct (negb (Ascii.eqb b "/")); [split; reflexivity|].
    change (trees_map (with_Methods r names)) with (trees_map r).
    destruct (addRoute _ _ _) as [root' failure]. split; reflexivity. }
  split; [reflexivity|]. split; [exact Hreg|]. split.
  { intros path h ms. unfold GET, HEAD, OPTIONS, POST, PUT, PATCH, DELETE.
    repeat split; apply Hreg. }
  split.
  { intros path root. unfold ServeFiles, GET.
    destruct (_ || _); [split; reflexivity|]. apply Hreg. }
  repeat split; reflexivity.
Qed.

End GuardTheory.

(** C7, a run: [router.GET("noSlashRoot", ...)] of [TestRouterRoot]. *)
Lemma Register_rejects_missing_slash_run :
  GET (New : Demo.router) "noSlashRoot" (Demo.mark 1) []
  = (New, GuardPanic "path must begin with '/' in path 'noSlashRoot'").
Proof.
  apply (Register_rejects_missing_slash (New : Demo.router) "GET"
           "n"%char "oSlashRoot" (Demo.mark 1) []).
  discriminate.
Defined.

(** ** Determinism of dispatch *)

Section DeterminismTheory.
Context {Ctx St node : Type}.
Context {tree : Tree (@Handler Ctx St) node} {pathops : PathOps}.

Implicit Types (r : Router (@Handler Ctx St) node) (order : list string)
  (c : Context).

(** [allowed] is empty exactly when every offered method on the way has no
    name. *)
Lemma allowed_empty_iff r order (path reqMethod : string) :
  allowed r order path reqMethod = "" <->
  ∀ m, m ∈ order -> offered r path reqMethod m = true -> m = "".
Proof.
  rewrite allowed_filter. cbv zeta.
  set (allow := fold_left add_method _ "").
  assert (Hallow : allow = "" <->
            ∀ m, m ∈ order -> offered r path reqMethod m = true -> m = "").
  { unfold allow. rewrite fold_add_method_empty. split.
    - intros [_ Hall] m Hm Hoff. apply Hall, list_elem_of_filter. auto.
    - intros Hall. split; [reflexivity|].
      intros m Hm. apply list_elem_of_filter in Hm as [Hoff Hm]. auto. }
  rewrite <- Hallow.
  destruct (0 <? String.length allow) eqn:Hlen; [|reflexivity].
  apply nonempty_length in Hlen. split; [|congruence].
  destruct allow; [congruence|]. rewrite append_cons. discriminate.
Qed.





End DeterminismTheory.


(** ** The reference tree matches no route for the server-wide path *)

Section ReferenceTreeTheory.
Context {Ctx St : Type}.

Implicit Types (r : Router (@Handler Ctx St) (SpecTree.node (@Handler Ctx St)))
  (n : SpecTree.node (@Handler Ctx St)).







End ReferenceTreeTheory.


(** The fixed-path branch, a run: only [GET /path] registered, [GET /PATH]
    asked for. *)
Lemma Handle_fixed_path_redirect_run :
  Handle Demo.get_path ["GET"] (Demo.request "GET" "/PATH")
  = [Do (SetPath "/path");
     Do (DoRedirect
           (if negb (String.eqb (Method (Demo.request "GET" "/PATH")) "GET")
            then 307%Z else 301%Z)
           (URL_String (Url (Demo.request "GET" "/PATH"))))].
Proof.
  apply (Handle_fixed_path_redirect Demo.get_path ["GET"]
           (Demo.request "GET" "/PATH") [("/path", Demo.mark 1)] [] false "/path").
  - reflexivity.
  - reflexivity.
  - discriminate.
  - discriminate.
  - reflexivity.
  - reflexivity.
  - reflexivity.
Defined.

(** ** Runs of [router_test.go] *)

(** [TestRouter]: the params of [GET /user/gopher]. *)
Example run_TestRouter :
  HandleFunc Runs.user_router ["GET"] tt (Harness.incoming "GET" "/user/gopher")
  = {| Harness.w_ctx :=
         mkContext "GET" "/user/gopher" (mkURL "/user/gopher" "")
                   [mkParam "name" "gopher"];
       Harness.w_sent := []; Harness.w_calls := [1]; Harness.w_served := [] |}.
Proof. reflexivity. Qed.

(** [TestRoutes]: the middleware of [Routes] goes on to [next]. *)
Example run_TestRoutes :
  Harness.w_calls
    (Routes (New : Runs.router) [] tt (Harness.hit 9 tt)
            (Harness.incoming "GET" "/"))
  = [9].
Proof. reflexivity. Qed.

(** [TestRouterChaining]: a route of the second router is reached through
    the not-found handler of the first. *)
Example run_TestRouterChaining :
  Harness.w_calls
    (HandleFunc Runs.router1 ["POST"] tt (Harness.incoming "POST" "/foo")) = [1] ∧
  Harness.w_calls
    (HandleFunc Runs.router1 ["POST"] tt (Harness.incoming "POST" "/bar")) = [2].
Proof. split; reflexivity. Qed.

(** [TestRouterServeFiles]: a pattern without the suffix panics; with it,
    the file server is asked for the captured path. *)
Example run_TestRouterServeFiles :
  snd (ServeFiles (New : Runs.router) "/noFilepath" tt)
  = GuardPanic "path must end with /*filepath in path '/noFilepath'" ∧
  Harness.w_served
    (HandleFunc Runs.file_router ["GET"] tt
                (Harness.incoming "GET" "/favicon.ico"))
  = ["/favicon.ico"].
Proof. split; reflexivity. Qed.

(** [TestRouteMiddleware]: marks 1, 2, 3 before and 4, 5 after, around a
    handler that does nothing. *)
Example run_TestRouteMiddleware :
  middlewareHandler
    [Demo.around 1 5; Demo.around 2 4; (fun _ next s => next (s ++ [3]))]
    skip tt []
  = [1; 2; 3; 4; 5].
Proof. reflexivity. Qed.

(** [TestRedirectTrailingSlash], its POST and PUT parts. *)
Example run_TestRedirectTrailingSlash :
  Handle Demo.post_path ["POST"] (Demo.request "POST" "/path/")
  = [Do (SetURLPath "/path"); Do (SetPath "/path"); Do (DoRedirect 307 "/path")] ∧
  Handle (fst (PUT (New : Demo.router) "/path/" (Demo.mark 1) [])) ["PUT"]
         (Demo.request "PUT" "/path")
  = [Do (SetURLPath "/path/"); Do (SetPath "/path/");
     Do (DoRedirect 307 "/path/")].
Proof. split; reflexivity. Qed.

(** ** [ServeFiles] *)

Section ServeFilesTheory.
Context {Ctx St node FS : Type}.
Context {tree : Tree (@Handler Ctx St) node} {host : Host Ctx St FS}.

Implicit Types (r : Router (@Handler Ctx St) node) (root : FS).

(** A string is its first [n] bytes followed by the rest. *)
Lemma substring_split (s : string) (n : nat) :
  n <= String.length s ->
  s = String.substring 0 n s +:+ String.substring n (String.length s - n) s.
Proof.
  revert n. induction s as [|a s IH]; intros n Hn.
  - destruct n; reflexivity.
  - destruct n as [|n].
    + rewrite append_nil_l. simpl. f_equal.
      clear. induction s as [|b s IH]; [reflexivity|].
      simpl. f_equal. exact IH.
    + simpl in Hn. simpl. rewrite append_cons. f_equal. apply IH. lia.
Qed.

(** Behind a prefix, the bytes that follow are the suffix. *)
Lemma substring_suffix (pre suf : string) :
  String.substring (String.length pre) (String.length suf) (pre +:+ suf) = suf.
Proof.
  induction pre as [|a pre IH].
  - rewrite append_nil_l. simpl.
    induction suf as [|b suf IH]; [reflexivity|]. simpl. f_equal. exact IH.
  - rewrite append_cons. simpl. exact IH.
Qed.

(** The test of line 210 of [ServeFiles] fails exactly for the patterns that
    end in [/*filepath]. *)
Lemma filepath_suffix_test (path : string) :
  (String.length path <? 10) ||
  negb (String.eqb (String.substring (String.length path - 10) 10 path)
                   "/*filepath") = false
  <-> ∃ pre, path = pre +:+ "/*filepath".
Proof.
  rewrite orb_false_iff, Nat.ltb_ge, negb_false_iff, String.eqb_eq. split.
  - intros [Hlen Hsuf]. exists (String.substring 0 (String.length path - 10) path).
    pose proof (substring_split path (String.length path - 10)) as Hsplit.
    replace (String.length path - (String.length path - 10)) with 10
      in Hsplit by lia.
    rewrite Hsuf in Hsplit. apply Hsplit. lia.
  - intros [pre ->]. rewrite length_append. simpl String.length. split; [lia|].
    replace (String.length pre + 10 - 10) with (String.length pre) by lia.
    apply (substring_suffix pre "/*filepath").
Qed.

(** X3.  [ServeFiles] panics with its own message, the router untouched, exactly
    for the patterns that do not end in [/*filepath]; for one that does it
    is [GET] with the file handler and no middleware.  It never ends in an
    index fault: a pattern that passes its test has a first byte, which the
    guard of [Register] then reads. *)
Theorem ServeFiles_guard r (path : string) root :
  (¬ (∃ pre, path = pre +:+ "/*filepath") ->
   ServeFiles r path root
   = (r, GuardPanic ("path must end with /*filepath in path '" +:+ path +:+ "'"))) ∧
  (∀ pre, path = pre +:+ "/*filepath" ->
   ServeFiles r path root = Register r "GET" path (fileHandler root) []) ∧
  (∀ idx len, snd (ServeFiles r path root) ≠ IndexOutOfRange idx len).
Proof.
  pose proof (filepath_suffix_test path) as Htest.
  unfold ServeFiles, GET.
  destruct (_ || _) eqn:Hguard.
  - split; [reflexivity|]. split; [|discriminate].
    intros pre Hpre. assert (Habs : true = false) by (apply Htest; eauto).
    discriminate Habs.
  - split.
    { intros Hno. exfalso. apply Hno, Htest. reflexivity. }
    split; [reflexivity|].
    intros idx len. destruct (proj1 Htest eq_refl) as [pre ->].
    assert (Hfirst : ∃ b rest, pre +:+ "/*filepath" = String b rest).
    { destruct pre as [|a pre]; [exists "/"%char, "*filepath"; reflexivity|].
      rewrite append_cons. eauto. }
    destruct Hfirst as (b & rest & ->). rewrite Register_first_byte.
    clear Hguard Htest.
    destruct (negb _); [intros Habs; discriminate Habs|].
    destruct (addRoute _ _ _) as [root' [msg|]]; intros Habs; discriminate Habs.
Qed.

End ServeFilesTheory.

(** [ServeFiles], runs: a pattern without the suffix, and a pattern with
    the suffix and without a leading slash, which passes the test of
    [ServeFiles] and is rejected by the guard of [Register]. *)
Lemma ServeFiles_guard_run :
  ServeFiles (New : Runs.router) "/noFilepath" tt
  = (New, GuardPanic "path must end with /*filepath in path '/noFilepath'") ∧
  ServeFiles (New : Runs.router) "static/*filepath" tt
  = (New, GuardPanic "path must begin with '/' in path 'static/*filepath'").
Proof.
  destruct (ServeFiles_guard (New : Runs.router) "/noFilepath" tt)
    as (Hreject & _ & _).
  destruct (ServeFiles_guard (New : Runs.router) "static/*filepath" tt)
    as (_ & Haccept & _).
  split.
  - apply Hreject. intros [pre Hpre].
    destruct pre as [|a [|a' pre]]; try discriminate Hpre.
    apply (f_equal String.length) in Hpre.
    rewrite !append_cons in Hpre. simpl in Hpre.
    rewrite length_append in Hpre. simpl in Hpre. lia.
  - rewrite (Haccept "static" eq_refl). reflexivity.
Defined.

(** ** What [Register] changes *)

Section RegisterFrameTheory.
Context {Ctx St node : Type}.
Context {tree : Tree (@Handler Ctx St) node}.

Implicit Types (r : Router (@Handler Ctx St) node) (h : @Handler Ctx St)
  (ms : list (@Middleware Ctx St)).

(** The trees map a registration that passes the guard leaves. *)
Lemma Register_trees r (method : string) (b : ascii) (rest : string) h ms :
  b = "/"%char ->
  trees (fst (Register r method (String b rest) h ms))
  = Some (<[method :=
             fst (addRoute (match trees_map r !! method with
                            | Some n => n
                            | None => new_node
                            end)
                           (String b rest)
                           (if 0 <? length ms then middlewareHandler ms h else h))]>
          (trees_map r)).
Proof.
  intros ->. rewrite Register_first_byte.
  change (negb (Ascii.eqb "/" "/")) with false. cbv iota.
  destruct (addRoute _ _ _) as [root' failure]. reflexivity.
Qed.

(** X4.  A registration whose pattern begins with a slash, however it ends (also
    when [addRoute] panics): the trees map is made, the method has a tree,
    namely what [addRoute] left of its former tree or of a new node, the
    trees of the other methods are the same, the keys of the map are the
    former ones and the method, and the flags and the two fallback handlers
    are untouched. *)
Theorem Register_frame r (method : string) (b : ascii) (rest : string) h ms :
  b = "/"%char ->
  let r' := fst (Register r method (String b rest) h ms) in
  trees r' ≠ None ∧
  tree_of r' method
  = Some (fst (addRoute (match tree_of r method with
                         | Some n => n
                         | None => new_node
                         end)
                        (String b rest)
                        (if 0 <? length ms then middlewareHandler ms h else h))) ∧
  (∀ other, other ≠ method -> tree_of r' other = tree_of r other) ∧
  dom (trees_map r') = {[method]} ∪ dom (trees_map r) ∧
  RedirectTrailingSlash r' = RedirectTrailingSlash r ∧
  RedirectFixedPath r' = RedirectFixedPath r ∧
  HandleMethodNotAllowed r' = HandleMethodNotAllowed r ∧
  HandleOPTIONS r' = HandleOPTIONS r ∧
  NotFound r' = NotFound r ∧
  MethodNotAllowed r' = MethodNotAllowed r.
Proof.
  intros Hb r'.
  pose proof (Register_trees r method b rest h ms Hb) as Htrees.
  fold r' in Htrees.
  assert (Hmap : trees_map r'
    = <[method :=
          fst (addRoute (match trees_map r !! method with
                         | Some n => n
                         | None => new_node
                         end)
                        (String b rest)
                        (if 0 <? length ms then middlewareHandler ms h else h))]>
        (trees_map r)).
  { unfold trees_map at 1. rewrite Htrees. reflexivity. }
  split; [rewrite Htrees; discriminate|].
  split; [unfold tree_of; rewrite Hmap; apply lookup_insert_eq|].
  split.
  { intros other Hother. unfold tree_of. rewrite Hmap.
    apply lookup_insert_ne. congruence. }
  split; [rewrite Hmap; apply dom_insert_L|].
  subst r' b. rewrite Register_first_byte.
  change (negb (Ascii.eqb "/" "/")) with false. cbv iota.
  destruct (addRoute _ _ _) as [root' failure]. repeat split; reflexivity.
Qed.

(** X5.  After a registration whose pattern begins with a slash, under a method
    with a name other than OPTIONS, the server-wide Allow list is not empty
    and an [OPTIONS *] request is answered with it, whether the
    registration went through or [addRoute] panicked: the method's tree is
    stored before [addRoute] runs, and the server-wide list goes by the
    keys of the trees map. *)
Theorem Register_advertises_method r (method : string) (b : ascii)
    (rest : string) h ms (o : list string) (req : string) :
  b = "/"%char ->
  method ≠ "OPTIONS" ->
  method ≠ "" ->
  range_order (fst (Register r method (String b rest) h ms)) o ->
  method ∈ o ∧
  allowed (fst (Register r method (String b rest) h ms)) o "*" req ≠ "".
Proof.
  intros Hb Hoptions Hname Horder.
  assert (Hin : method ∈ o).
  { apply (range_order_elem_of _ o method Horder).
    unfold tree_of, trees_map.
    rewrite (Register_trees r method b rest h ms Hb), lookup_insert_eq.
    eauto. }
  split; [exact Hin|].
  intros Hempty. apply Hname.
  apply (proj1 (allowed_empty_iff _ o "*" req) Hempty method Hin).
  unfold offered. apply String.eqb_neq in Hoptions. rewrite Hoptions.
  reflexivity.
Qed.

End RegisterFrameTheory.

(** [Register], a run that [addRoute] rejects: the PUT tree is stored all
    the same, as the new node [addRoute] was given. *)
Lemma Register_frame_run :
  snd Demo.failed_put
  = RoutePanic "catch-all routes are only allowed at the end of the path" ∧
  trees (fst Demo.failed_put) ≠ None ∧
  tree_of (fst Demo.failed_put) "PUT" = Some [] ∧
  (∀ other, other ≠ "PUT" ->
            tree_of (fst Demo.failed_put) other
            = tree_of (New : Demo.router) other).
Proof.
  destruct (Register_frame (New : Demo.router) "PUT" "/" "a/*x/b"
              (Demo.mark 1) [] eq_refl) as (Hmade & Htree & Hother & _).
  unfold Demo.failed_put. split; [reflexivity|]. split; [exact Hmade|].
  split; [rewrite Htree; reflexivity|exact Hother].
Defined.

(** The rejected registration is advertised: PUT is in the server-wide
    Allow list, and [OPTIONS *] is answered with it. *)
Lemma Register_advertises_method_run :
  Handle (fst Demo.failed_put) ["PUT"] (Demo.request "OPTIONS" "*")
  = [Do (SetHeader "Allow" "PUT, OPTIONS")] ∧
  "PUT" ∈ ["PUT"] ∧
  allowed (fst Demo.failed_put) ["PUT"] "*" "OPTIONS" ≠ "".
Proof.
  unfold Demo.failed_put. split; [reflexivity|].
  apply (Register_advertises_method (New : Demo.router) "PUT" "/" "a/*x/b"
           (Demo.mark 1) [] ["PUT"] "OPTIONS").
  - reflexivity.
  - discriminate.
  - discriminate.
  - unfold range_order. vm_compute. reflexivity.
Defined.

(** ** What a dispatch never does *)

(** Takes apart the membership of an action in a list that is written
    out. *)
Ltac members :=
  repeat match goal with
         | Hin : _ ∈ _ :: _ |- _ => apply elem_of_cons in Hin as [Hin|Hin]
         | Hin : _ ∈ [] |- _ => inversion Hin
         end.

Section HandleFacts.
Context {Ctx St node : Type}.
Context {tree : Tree (@Handler Ctx St) node} {pathops : PathOps}.

Implicit Types (r : Router (@Handler Ctx St) node) (order : list string)
  (c : Context).

(** The second block of [Handle] has nothing but an Allow header with the
    allowed methods, one handler call or the 405 error. *)
Lemma fallbackStep_actions r order c (a : Action (@Handler Ctx St)) :
  a ∈ fallbackStep r order c ->
  (a = Do (SetHeader "Allow" (allowed r order (Path c) (Method c))) ∧
   allowed r order (Path c) (Method c) ≠ "") ∨
  (a = Do (DoError 405 "Method Not Allowed") ∧
   MethodNotAllowed r = None ∧ HandleMethodNotAllowed r = true) ∨
  (∃ h, a = Call h ∧ (NotFound r = Some h ∨ MethodNotAllowed r = Some h)).
Proof.
  unfold fallbackStep.
  destruct (String.eqb (Method c) "OPTIONS" && HandleOPTIONS r).
  - destruct (0 <? _) eqn:Hlen.
    + apply nonempty_length in Hlen. intros Hin. members. subst. auto.
    + destruct (NotFound r) as [h|]; intros Hin; members. subst. eauto 6.
  - destruct (HandleMethodNotAllowed r).
    + destruct (0 <? _) eqn:Hlen.
      * apply nonempty_length in Hlen.
        destruct (MethodNotAllowed r) as [h|]; intros Hin; members; subst;
          eauto 8.
      * destruct (NotFound r) as [h|]; intros Hin; members. subst. eauto 6.
    + destruct (NotFound r) as [h|]; intros Hin; members. subst. eauto 6.
Qed.

(** The second block calls at most one handler. *)
Lemma fallbackStep_one_call r order c :
  length (List.filter is_call (fallbackStep r order c)) <= 1.
Proof.
  unfold fallbackStep.
  destruct (_ && _); [|destruct (HandleMethodNotAllowed r)];
    try destruct (0 <? _); try destruct (MethodNotAllowed r);
    try destruct (NotFound r); simpl; lia.
Qed.

(** X6.  A dispatch redirects only a request whose method has a tree without a
    handler for the path, never a CONNECT request and never the path [/],
    only with one of the two redirect flags on, with status 301 for GET and
    307 for every other method; and a dispatch that redirects calls no
    handler and sets no header. *)
Theorem Handle_redirect_facts r order c (code : Z) (url : string) :
  Do (DoRedirect code url) ∈ Handle r order c ->
  is_Some (tree_of r (Method c)) ∧
  has_handler r (Method c) (Path c) = false ∧
  Method c ≠ "CONNECT" ∧
  Path c ≠ "/" ∧
  ((Method c = "GET" ∧ code = 301%Z) ∨ (Method c ≠ "GET" ∧ code = 307%Z)) ∧
  (RedirectTrailingSlash r = true ∨ RedirectFixedPath r = true) ∧
  (∀ a, a ∈ Handle r order c -> is_call a = false) ∧
  (∀ key value, Do (SetHeader key value) ∉ Handle r order c).
Proof.
  unfold Handle, lookupStep, has_handler.
  destruct (tree_of r (Method c)) as [root|].
  2:{ intros Hin. apply fallbackStep_actions in Hin
        as [[Habs _]|[[Habs _]|(h & Habs & _)]]; discriminate Habs. }
  destruct (getValue root (Path c)) as [[[h|] ps] tsr].
  { intros Hin. members; discriminate Hin. }
  destruct (String.eqb_spec (Method c) "CONNECT") as [Hm|Hm]; simpl.
  { intros Hin. apply fallbackStep_actions in Hin
      as [[Habs _]|[[Habs _]|(h & Habs & _)]]; discriminate Habs. }
  destruct (String.eqb_spec (Path c) "/") as [Hp|Hp]; simpl.
  { intros Hin. apply fallbackStep_actions in Hin
      as [[Habs _]|[[Habs _]|(h & Habs & _)]]; discriminate Habs. }
  assert (Hcode : ∀ code',
    code' = (if negb (String.eqb (Method c) "GET") then 307%Z else 301%Z) ->
    (Method c = "GET" ∧ code' = 301%Z) ∨ (Method c ≠ "GET" ∧ code' = 307%Z)).
  { intros code' ->. destruct (String.eqb_spec (Method c) "GET"); simpl; auto. }
  destruct tsr, (RedirectTrailingSlash r) eqn:Hts; simpl.
  all: try (destruct (RedirectFixedPath r) eqn:Hfp;
            [destruct (findCaseInsensitivePath _ _ _) as [fixedPath [|]]|]).
  all: intros Hin.
  all: try (apply fallbackStep_actions in Hin
              as [[Habs _]|[[Habs _]|(h & Habs & _)]]; discriminate Habs).
  all: members; try discriminate Hin; injection Hin as -> _.
  all: repeat split; eauto.
  all: try (intros a Ha; members; subst; reflexivity).
  all: intros key value Ha; members; discriminate Ha.
Qed.

(** X7.  A dispatch calls at most one handler.  The only header it sets is
    Allow, to the allowed methods, which are then not empty, and only when
    the first block neither found a handler nor redirected.  The only error
    it raises is 405, and only with [HandleMethodNotAllowed] on and no
    custom handler set.  Params are stored only together with the call of
    the handler found. *)
Theorem Handle_response_facts r order c :
  length (List.filter is_call (Handle r order c)) <= 1 ∧
  (∀ key value,
     Do (SetHeader key value) ∈ Handle r order c ->
     key = "Allow" ∧ value = allowed r order (Path c) (Method c) ∧
     value ≠ "" ∧ lookupStep r c = None) ∧
  (∀ code msg,
     Do (DoError code msg) ∈ Handle r order c ->
     code = 405%Z ∧ msg = "Method Not Allowed" ∧
     MethodNotAllowed r = None ∧ HandleMethodNotAllowed r = true) ∧
  (∀ ps,
     Do (SetParams ps) ∈ Handle r order c ->
     ∃ h, Handle r order c = [Do (SetParams ps); Call h]).
Proof.
  assert (Hstep : ∀ done, lookupStep r c = Some done ->
    (∃ h ps, done = [Do (SetParams ps); Call h]) ∨
    (∃ p code url, done = [Do (SetURLPath p); Do (SetPath p);
                           Do (DoRedirect code url)]) ∨
    (∃ p code url, done = [Do (SetPath p); Do (DoRedirect code url)])).
  { intros done. unfold lookupStep.
    destruct (tree_of r (Method c)) as [root|]; [|discriminate].
    destruct (getValue root (Path c)) as [[[h|] ps] tsr].
    { intros [= <-]. eauto. }
    destruct (negb _ && negb _); [|discriminate].
    destruct (tsr && RedirectTrailingSlash r).
    { intros [= <-]. right. left. eauto. }
    destruct (RedirectFixedPath r); [|discriminate].
    destruct (findCaseInsensitivePath _ _ _) as [fixedPath [|]]; [|discriminate].
    intros [= <-]. right. right. eauto. }
  unfold Handle. destruct (lookupStep r c) as [done|] eqn:Hlookup.
  - destruct (Hstep done eq_refl)
      as [(h & ps & ->)|[(p & code & url & ->)|(p & code & url & ->)]].
    + split; [simpl; lia|]. repeat split.
      all: try (intros; members; discriminate).
      intros ps' Hin. members; try discriminate Hin.
      injection Hin as <-. eauto.
    + split; [simpl; lia|]. repeat split; intros; members; discriminate.
    + split; [simpl; lia|]. repeat split; intros; members; discriminate.
  - split; [apply fallbackStep_one_call|]. split; [|split].
    + intros key value Hin. apply fallbackStep_actions in Hin
        as [[Heq Hne]|[[Habs _]|(h & Habs & _)]]; try discriminate Habs.
      injection Heq as -> ->. auto.
    + intros code msg Hin. apply fallbackStep_actions in Hin
        as [[Habs _]|[[Heq [Hnone Hflag]]|(h & Habs & _)]];
        try discriminate Habs.
      injection Heq as -> ->. auto.
    + intros ps Hin. apply fallbackStep_actions in Hin
        as [[Habs _]|[[Habs _]|(h & Habs & _)]]; discriminate Habs.
Qed.

End HandleFacts.

(** A redirect, a run: only [GET /path] registered, [GET /path/] asked
    for. *)
Lemma Handle_redirect_facts_run :
  Do (DoRedirect 301 "/path")
    ∈ Handle Demo.get_path ["GET"] (Demo.request "GET" "/path/") ∧
  is_Some (tree_of Demo.get_path "GET") ∧
  has_handler Demo.get_path "GET" "/path/" = false ∧
  (∀ a, a ∈ Handle Demo.get_path ["GET"] (Demo.request "GET" "/path/") ->
        is_call a = false) ∧
  (∀ key value,
     Do (SetHeader key value)
       ∉ Handle Demo.get_path ["GET"] (Demo.request "GET" "/path/")).
Proof.
  assert (Hin : Do (DoRedirect 301 "/path")
                  ∈ Handle Demo.get_path ["GET"] (Demo.request "GET" "/path/")).
  { assert (Htrace : Handle Demo.get_path ["GET"] (Demo.request "GET" "/path/")
                     = [Do (SetURLPath "/path"); Do (SetPath "/path");
                        Do (DoRedirect 301 "/path")]) by reflexivity.
    rewrite Htrace, !elem_of_cons. auto. }
  split; [exact Hin|].
  destruct (Handle_redirect_facts Demo.get_path ["GET"]
              (Demo.request "GET" "/path/") 301 "/path" Hin)
    as (Htree & Hnone & _ & _ & _ & _ & Hcalls & Hheaders).
  auto.
Defined.

(** ** Not found, and routers in a chain *)

Section NotFoundTheory.
Context {Ctx St node FS : Type}.
Context {tree : Tree (@Handler Ctx St) node} {pathops : PathOps}
  {host : Host Ctx St FS}.

Implicit Types (r : Router (@Handler Ctx St) node) (order : list string)
  (c : Context).

(** With nothing to allow, the second block of [Handle] is the not-found
    handler, if there is one. *)
Lemma fallbackStep_not_found r order c :
  allowed r order (Path c) (Method c) = "" ->
  fallbackStep r order c
  = match NotFound r with
    | Some h => [Call h]
    | None => []
    end.
Proof.
  intros Hallow. unfold fallbackStep. rewrite Hallow. simpl.
  destruct (_ && _); [reflexivity|].
  destruct (HandleMethodNotAllowed r); reflexivity.
Qed.

(** Without any tree, nothing is allowed. *)
Lemma allowed_without_trees r order (path reqMethod : string) :
  trees_map r = ∅ -> range_order r order ->
  allowed r order path reqMethod = "".
Proof.
  intros Hempty Horder. apply allowed_empty_iff. intros m Hm.
  apply (range_order_elem_of r order m Horder) in Hm as [n Hn].
  unfold tree_of in Hn. rewrite Hempty, lookup_empty in Hn. discriminate Hn.
Qed.

(** X8.  When a request finds no handler and no redirect and no other method
    has a handler for its path, the dispatch calls the not-found handler and
    does nothing else, or does nothing at all when none is set, whatever the
    flags are. *)
Theorem Handle_not_found r order c :
  lookupStep r c = None ->
  allowed r order (Path c) (Method c) = "" ->
  Handle r order c
  = match NotFound r with
    | Some h => [Call h]
    | None => []
    end.
Proof.
  intros Hstep Hallow. unfold Handle. rewrite Hstep.
  apply fallbackStep_not_found. exact Hallow.
Qed.

(** X9.  A router without routes (a new one, or one left by registrations that
    the guard rejected) answers every request, OPTIONS and the server-wide
    path included, with the not-found handler alone, or with nothing when
    none is set: no redirect, no Allow header, no 405. *)
Theorem Handle_without_routes r order c :
  trees_map r = ∅ ->
  range_order r order ->
  Handle r order c
  = match NotFound r with
    | Some h => [Call h]
    | None => []
    end.
Proof.
  intros Hempty Horder. unfold Handle.
  assert (Hstep : lookupStep r c = None).
  { unfold lookupStep, tree_of. rewrite Hempty, lookup_empty. reflexivity. }
  rewrite Hstep. apply fallbackStep_not_found.
  apply allowed_without_trees; assumption.
Qed.

(** X10.  Routers in a chain: with the dispatch of a second router set as the
    not-found handler of a first, a request for which the first finds no
    handler, no redirect and no other method to allow is dispatched by the
    second router, on the state as the request came in. *)
Theorem HandleFunc_chains r r2 (order order2 : list string) (cp : Ctx) (s : St) :
  NotFound r = Some (HandleFunc r2 order2) ->
  lookupStep r (ctx_get cp s) = None ->
  allowed r order (Path (ctx_get cp s)) (Method (ctx_get cp s)) = "" ->
  HandleFunc r order cp s = HandleFunc r2 order2 cp s.
Proof.
  intros Hchain Hstep Hallow. unfold HandleFunc at 1, Handle.
  rewrite Hstep, (fallbackStep_not_found r order _ Hallow), Hchain.
  reflexivity.
Qed.

End NotFoundTheory.

(** Not found, a run: [TestRouterNotFound]'s [GET /nope] on a router that
    has a PATCH route only. *)
Lemma Handle_not_found_run :
  Handle (fst (PATCH (New : Demo.router) "/path" (Demo.mark 1) [])) ["PATCH"]
         (Demo.request "GET" "/nope")
  = match NotFound (fst (PATCH (New : Demo.router) "/path" (Demo.mark 1) [])) with
    | Some h => [Call h]
    | None => []
    end.
Proof.
  apply Handle_not_found; reflexivity.
Defined.

(** No routes, a run: a new router and [OPTIONS *]. *)
Lemma Handle_without_routes_run :
  Handle (New : Demo.router) [] (Demo.request "OPTIONS" "*") = [].
Proof.
  apply (Handle_without_routes (New : Demo.router) [] (Demo.request "OPTIONS" "*")).
  - reflexivity.
  - unfold range_order. vm_compute. reflexivity.
Defined.

(** The chain of [TestRouterChaining]: [POST /bar] through the first router
    is the dispatch of the second. *)
Lemma HandleFunc_chains_run :
  HandleFunc Runs.router1 ["POST"] tt (Harness.incoming "POST" "/bar")
  = HandleFunc Runs.router2 ["POST"] tt (Harness.incoming "POST" "/bar").
Proof.
  apply (HandleFunc_chains Runs.router1 Runs.router2 ["POST"] ["POST"] tt
           (Harness.incoming "POST" "/bar")); reflexivity.
Defined.

(** ** Order of middleware code *)

Section OnionTheory.
Context {Ctx St : Type}.

Implicit Types (ms : list (@Middleware Ctx St)) (h pre post : @Handler Ctx St)
  (layers : list (@Handler Ctx St * @Handler Ctx St)).

(** X11.  Composing a list put together from two is running the first with the
    composition of the second as the continuation of its last middleware;
    composing no middleware does nothing, and composing one more in front
    hands it the composition of the rest as [next]. *)
Theorem compose_app ms ms' (c : Ctx) :
  compose (ms ++ ms') c = nested ms (compose ms') c ∧
  compose ([] : list (@Middleware Ctx St)) c = (fun s => s) ∧
  (∀ fn, compose (fn :: ms) c = fn c (compose ms c)).
Proof.
  rewrite !compose_nested. split; [apply nested_app|].
  split; [reflexivity|].
  intros fn. rewrite !compose_nested. reflexivity.
Qed.

(** The chain of middlewares that each run [pre], invoke [next] once and run
    [post]: every [pre] in list order, then every [post] in reverse order. *)
Lemma nested_wrap layers (c : Ctx) (s : St) :
  nested (map (fun layer => wrap (fst layer) (snd layer)) layers) skip c s
  = fold_right (fun layer acc => snd layer c acc)
      (fold_left (fun acc layer => fst layer c acc) layers s) layers.
Proof.
  revert s. induction layers as [|[pre post] layers IH]; intros s; [reflexivity|].
  simpl. unfold wrap at 1. simpl.
  change (fold_right (fun fn next => fn c next) (skip c)
            (map (fun layer => wrap (fst layer) (snd layer)) layers))
    with (nested (map (fun layer => wrap (fst layer) (snd layer)) layers) skip c).
  rewrite IH. reflexivity.
Qed.

(** X12.  Onion order.  For middlewares that each run code before and after
    invoking [next] once, the callable [Register] installs runs the code
    before in registration order, then the code after in reverse order, and
    the handler last, after the code after of the first middleware. *)
Theorem middlewareHandler_onion layers h (c : Ctx) (s : St) :
  middlewareHandler (map (fun layer => wrap (fst layer) (snd layer)) layers) h c s
  = h c (fold_right (fun layer acc => snd layer c acc)
           (fold_left (fun acc layer => fst layer c acc) layers s) layers).
Proof.
  unfold middlewareHandler. rewrite compose_nested, nested_wrap. reflexivity.
Qed.

End OnionTheory.

(** Onion order, a run: marks 1, 2, 3 before and 6, 5, 4 after, then the
    handler's 9. *)
Lemma middlewareHandler_onion_run :
  middlewareHandler
    (map (fun layer => wrap (fst layer) (snd layer))
         [(Demo.mark 1, Demo.mark 6); (Demo.mark 2, Demo.mark 5);
          (Demo.mark 3, Demo.mark 4)])
    (Demo.mark 9) tt []
  = [1; 2; 3; 4; 5; 6; 9].
Proof.
  rewrite middlewareHandler_onion. reflexivity.
Defined.

(** ** The path of a trailing-slash redirect *)

Section ToggleTheory.
Context {Ctx St node : Type}.
Context {tree : Tree (@Handler Ctx St) node} {pathops : PathOps}.

Implicit Types (r : Router (@Handler Ctx St) node) (order : list string)
  (c : Context).

(** Toggling the final slash makes a path one byte shorter or one byte
    longer, and never empty. *)
Lemma toggle_slash_length (path : string) :
  toggle_slash path ≠ "" ∧
  (String.length (toggle_slash path) + 1 = String.length path ∨
   String.length (toggle_slash path) = String.length path + 1).
Proof.
  unfold toggle_slash. destruct (ends_in_slash path) eqn:Hends.
  - apply ends_in_slash_true in Hends as [Hlen Hpath].
    apply (f_equal String.length) in Hpath. rewrite length_append in Hpath.
    simpl in Hpath. split; [|left; lia].
    intros Hempty. rewrite Hempty in Hpath. simpl in Hpath. lia.
  - split; [|right; rewrite length_append; reflexivity].
    intros Hempty. apply (f_equal String.length) in Hempty.
    rewrite length_append in Hempty. simpl in Hempty. lia.
Qed.

(** X13.  The only assignment a dispatch makes to [c.URL.Path] is that of a
    trailing-slash redirect: [c.Path] gets the same value, which is the
    request's path with its final slash removed or with a slash appended,
    so never the request's own path and never the empty path. *)
Theorem Handle_toggles_final_slash r order c (p : string) :
  Do (SetURLPath p) ∈ Handle r order c ->
  Do (SetPath p) ∈ Handle r order c ∧
  RedirectTrailingSlash r = true ∧
  (Path c = p +:+ "/" ∨ p = Path c +:+ "/") ∧
  p ≠ Path c ∧
  p ≠ "".
Proof.
  intros Hin.
  assert (Hp : p = toggle_slash (Path c) ∧ RedirectTrailingSlash r = true ∧
               Do (SetPath p) ∈ Handle r order c).
  { revert Hin. unfold Handle, lookupStep.
    destruct (tree_of r (Method c)) as [root|].
    2:{ intros Hin. apply fallbackStep_actions in Hin
          as [[Habs _]|[[Habs _]|(h & Habs & _)]]; discriminate Habs. }
    destruct (getValue root (Path c)) as [[[h|] ps] tsr].
    { intros Hin. members; discriminate Hin. }
    destruct (negb _ && negb _).
    2:{ intros Hin. apply fallbackStep_actions in Hin
          as [[Habs _]|[[Habs _]|(h & Habs & _)]]; discriminate Habs. }
    destruct tsr, (RedirectTrailingSlash r); simpl.
    all: try (destruct (RedirectFixedPath r);
              [destruct (findCaseInsensitivePath _ _ _) as [fixedPath [|]]|]).
    all: intros Hin.
    all: try (apply fallbackStep_actions in Hin
                as [[Habs _]|[[Habs _]|(h & Habs & _)]]; discriminate Habs).
    all: members; try discriminate Hin.
    injection Hin as ->. split; [reflexivity|]. split; [reflexivity|].
    rewrite !elem_of_cons. auto. }
  destruct Hp as (-> & Hflag & Hpath).
  destruct (toggle_slash_length (Path c)) as [Hne Hlen].
  split; [exact Hpath|]. split; [exact Hflag|]. split.
  { unfold toggle_slash. destruct (ends_in_slash (Path c)) eqn:Hends.
    - left. apply ends_in_slash_true. exact Hends.
    - right. reflexivity. }
  split; [|exact Hne].
  intros Heq. rewrite Heq in Hlen. lia.
Qed.

End ToggleTheory.

(** The path of a redirect, a run: only [PUT /path/] registered, [PUT /path]
    asked for. *)
Lemma Handle_toggles_final_slash_run :
  Do (SetURLPath "/path/")
    ∈ Handle (fst (PUT (New : Demo.router) "/path/" (Demo.mark 1) [])) ["PUT"]
        (Demo.request "PUT" "/path") ∧
  Do (SetPath "/path/")
    ∈ Handle (fst (PUT (New : Demo.router) "/path/" (Demo.mark 1) [])) ["PUT"]
        (Demo.request "PUT" "/path") ∧
  "/path/" ≠ Path (Demo.request "PUT" "/path").
Proof.
  assert (Hin : Do (SetURLPath "/path/")
    ∈ Handle (fst (PUT (New : Demo.router) "/path/" (Demo.mark 1) [])) ["PUT"]
        (Demo.request "PUT" "/path")).
  { assert (Htrace :
      Handle (fst (PUT (New : Demo.router) "/path/" (Demo.mark 1) [])) ["PUT"]
        (Demo.request "PUT" "/path")
      = [Do (SetURLPath "/path/"); Do (SetPath "/path/");
         Do (DoRedirect 307 "/path/")]) by reflexivity.
    rewrite Htrace, !elem_of_cons. auto. }
  split; [exact Hin|].
  destruct (Handle_toggles_final_slash _ _ _ _ Hin) as (Hpath & _ & _ & Hne & _).
  auto.
Defined.

(** ** Routing *)

Section RoutingTheory.
Context {Ctx St node : Type}.
Context {tree : Tree (@Handler Ctx St) node} {pathops : PathOps}.

Implicit Types (r : Router (@Handler Ctx St) node) (order : list string)
  (c : Context).


End RoutingTheory.

(** ** OPTIONS with the automatic reply switched off *)

Section OptionsOffTheory.
Context {Ctx St node : Type}.
Context {tree : Tree (@Handler Ctx St) node} {pathops : PathOps}.

Implicit Types (r : Router (@Handler Ctx St) node) (order : list string)
  (c : Context).

(** What [allowed] returns is empty or ends in OPTIONS. *)
Lemma allowed_ends_in_OPTIONS r order (path reqMethod : string) :
  allowed r order path reqMethod ≠ "" ->
  ∃ pre, pre ≠ "" ∧ allowed r order path reqMethod = pre +:+ ", OPTIONS".
Proof.
  rewrite allowed_filter. cbv zeta.
  destruct (0 <? String.length _) eqn:Hlen.
  - intros _. eexists. split; [|reflexivity].
    apply nonempty_length. exact Hlen.
  - intros Hne. exfalso. apply Hne, length_zero.
    apply Nat.ltb_ge in Hlen. lia.
Qed.

(** X15.  With [HandleOPTIONS] off and [HandleMethodNotAllowed] on, an OPTIONS
    request that finds no handler and no redirect while another method has
    a handler for its path is answered as method not allowed, by the custom
    handler or the 405 error, under an Allow header that ends in OPTIONS,
    the very method that is refused. *)
Theorem OPTIONS_refused_with_OPTIONS_allowed r order c :
  Method c = "OPTIONS" ->
  HandleOPTIONS r = false ->
  HandleMethodNotAllowed r = true ->
  lookupStep r c = None ->
  allowed r order (Path c) "OPTIONS" ≠ "" ->
  ∃ pre,
    pre ≠ "" ∧
    Handle r order c
    = Do (SetHeader "Allow" (pre +:+ ", OPTIONS")) ::
      match MethodNotAllowed r with
      | Some h => [Call h]
      | None => [Do (DoError 405 "Method Not Allowed")]
      end.
Proof.
  intros Hmethod Hoff Hflag Hstep Hallow.
  destruct (allowed_ends_in_OPTIONS r order (Path c) "OPTIONS" Hallow)
    as (pre & Hpre & Heq).
  exists pre. split; [exact Hpre|].
  unfold Handle, fallbackStep.
  rewrite Hstep, Hmethod, Hoff, Hflag, andb_false_r.
  apply nonempty_length in Hallow. rewrite Hallow, Heq. reflexivity.
Qed.

End OptionsOffTheory.

(** OPTIONS refused, a run: [POST /path] registered, the automatic reply
    off, [OPTIONS /path] asked for. *)
Lemma OPTIONS_refused_with_OPTIONS_allowed_run :
  Handle Demo.post_path_options_off ["POST"] (Demo.request "OPTIONS" "/path")
  = [Do (SetHeader "Allow" "POST, OPTIONS");
     Do (DoError 405 "Method Not Allowed")] ∧
  ∃ pre,
    pre ≠ "" ∧
    Handle Demo.post_path_options_off ["POST"] (Demo.request "OPTIONS" "/path")
    = Do (SetHeader "Allow" (pre +:+ ", OPTIONS")) ::
      match MethodNotAllowed Demo.post_path_options_off with
      | Some h => [Call h]
      | None => [Do (DoError 405 "Method Not Allowed")]
      end.
Proof.
  split; [reflexivity|].
  apply (OPTIONS_refused_with_OPTIONS_allowed Demo.post_path_options_off
           ["POST"] (Demo.request "OPTIONS" "/path")).
  - reflexivity.
  - reflexivity.
  - reflexivity.
  - reflexivity.
  - discriminate.
Defined.
